(** * class2type: a shallow embedding of [src/index.ts]

    The generator turns class declarations into structural type
    declarations and pulls the enum / type-alias declarations referenced by
    property types into a global text block.  The syntax tree and the
    type checker come from ts-morph; the nodes it hands to [index.ts] are
    modelled here as plain records holding exactly the accessors the code
    calls ([getText], [getKind], [getChildren], [forEachChild],
    [getStructure], ...).  Strings are sequences of code units. *)

From Stdlib Require Import String Ascii List ZArith Lia Bool.
From stdpp Require Import base option gmap strings list.

Local Open Scope string_scope.
Local Open Scope list_scope.
Local Set Warnings "-register-all".

(** ** JavaScript string primitives used by the code *)

Module JS.

Definition nl : string := String (ascii_of_nat 10) EmptyString.

Fixpoint spaces (n : nat) : string :=
    match n with
    | O => EmptyString
    | S k => String " " (spaces k)
    end.

  (** A template literal renders [null] and [undefined] by their names. *)
Definition show_null (o : option string) : string :=
    match o with Some s => s | None => "null" end.

Definition show_undefined (o : option string) : string :=
    match o with Some s => s | None => "undefined" end.

  (** Truthiness of a string value: every string but the empty one. *)
Definition truthy (s : string) : bool :=
    match s with EmptyString => false | String _ _ => true end.

  (** [s.indexOf(sub)]: first position of [sub] in [s], or -1. *)
Definition indexOf (s sub : string) : Z :=
    match String.index 0 sub s with
    | Some n => Z.of_nat n
    | None => (-1)%Z
    end.

Fixpoint drop (n : nat) (s : string) : string :=
    match n, s with
    | O, _ => s
    | S _, EmptyString => EmptyString
    | S k, String _ s' => drop k s'
    end.

  (** [s.replace(pat, rep)] with a string pattern: the first occurrence
      only.  The code only calls it with an empty replacement. *)
Fixpoint replace (pat rep s : string) : string :=
    if String.prefix pat s then rep +:+ drop (String.length pat) s
    else match s with
         | EmptyString => EmptyString
         | String c s' => String c (replace pat rep s')
         end.

Definition lower_char (c : ascii) : ascii :=
    let n := nat_of_ascii c in
    if (65 <=? n)%nat && (n <=? 90)%nat then ascii_of_nat (n + 32) else c.

  (** [s.toLowerCase()] on code units below 128; the code compares the
      result with the ASCII word [partialtype] only. *)
Fixpoint toLowerCase (s : string) : string :=
    match s with
    | EmptyString => EmptyString
    | String c s' => String (lower_char c) (toLowerCase s')
    end.

  (** [s.split(sep)] for a one-character separator: segments in order,
      the current segment [cur] is kept reversed. *)
Fixpoint split_aux (sep : ascii) (cur : list ascii) (s : string) : list string :=
    match s with
    | EmptyString => [string_of_list_ascii (rev cur)]
    | String c s' =>
        if Ascii.eqb c sep
        then string_of_list_ascii (rev cur) :: split_aux sep [] s'
        else split_aux sep (c :: cur) s'
    end.

Definition split (sep : ascii) (s : string) : list string := split_aux sep [] s.

  (** [a.pop()] as an expression: the last element, [undefined] when empty. *)
Definition pop (l : list string) : option string := last l.

  (** [a.join(sep)] *)
Fixpoint join (sep : string) (l : list string) : string :=
    match l with
    | [] => EmptyString
    | [x] => x
    | x :: rest => x +:+ sep +:+ join sep rest
    end.

End JS.

(** ** The declaration tree supplied by ts-morph *)

Inductive SyntaxKind :=
| CallExpression
| Identifier
| SyntaxList
| TypeReference
| OtherKind (tag : nat).

Definition SyntaxKind_eqb (a b : SyntaxKind) : bool :=
  match a, b with
  | CallExpression, CallExpression => true
  | Identifier, Identifier => true
  | SyntaxList, SyntaxList => true
  | TypeReference, TypeReference => true
  | OtherKind m, OtherKind n => Nat.eqb m n
  | _, _ => false
  end.

(** A node: its kind, its text, the children [getChildren] returns (tokens
    and syntax lists included) and the children [forEachChild] visits. *)
Inductive Node :=
| mkNode (kind : SyntaxKind) (text : string)
         (children : list Node) (astChildren : list Node).

Definition getKind (n : Node) : SyntaxKind :=
  match n with mkNode k _ _ _ => k end.
Definition getText (n : Node) : string :=
  match n with mkNode _ t _ _ => t end.
Definition getChildren (n : Node) : list Node :=
  match n with mkNode _ _ c _ => c end.
Definition forEachChildNodes (n : Node) : list Node :=
  match n with mkNode _ _ _ a => a end.

Definition getFirstChild (n : Node) : option Node := head (getChildren n).

Definition getChildrenOfKind (k : SyntaxKind) (n : Node) : list Node :=
  filter (fun c => SyntaxKind_eqb (getKind c) k = true) (getChildren n).

(** The type annotation of a property ([compilerNode.type]). *)
Record TypeNode := {
  tn_kind : SyntaxKind;
  tn_text : string
}.

Record PropertyDeclaration := {
  p_name : string;
  p_hasQuestionToken : bool;
  p_typeNode : option TypeNode;
  p_jsDocs : list string;
  (** [p.getType().isEnum()], the type checker's answer *)
  p_typeIsEnum : bool
}.

Record ClassDeclaration := {
  c_name : option string;
  c_jsDocs : list string;
  c_properties : list PropertyDeclaration;
  c_extends : option Node
}.

(** An enum or a type alias of a file: its name and its text. *)
Record NamedDecl := {
  d_name : string;
  d_text : string
}.

Record ImportDeclaration := {
  i_moduleSpecifier : string;
  i_namedImports : list string
}.

Record SourceFile := {
  f_filePath : string;
  f_directoryPath : string;
  f_baseName : string;
  f_classes : list ClassDeclaration;
  f_enums : list NamedDecl;
  f_typeAliases : list NamedDecl;
  f_imports : list ImportDeclaration
}.

(** The files loaded in the ts-morph project. *)
Definition Project := list SourceFile.

Definition getByName (name : string) (ds : list NamedDecl) : option NamedDecl :=
  find (fun d => String.eqb (d_name d) name) ds.

Definition getEnum (f : SourceFile) (name : string) : option NamedDecl :=
  getByName name (f_enums f).

Definition getTypeAlias (f : SourceFile) (name : string) : option NamedDecl :=
  getByName name (f_typeAliases f).

Definition getSourceFile (project : Project) (path : string) : option SourceFile :=
  find (fun f => String.eqb (f_filePath f) path) project.

(** ** The host: node's [path] module, the working directory, prettier *)

Inductive result (A : Type) :=
| Ok (a : A)
| Err (msg : string).
Arguments Ok {A} a.
Arguments Err {A} msg.

Class Host := {
  cwd : string;
  path_join : list string -> string;
  path_resolve : list string -> string;
  (** [format(text, options)] with the fixed options of [run];
      prettier throws on text it cannot parse *)
  format : string -> result string
}.

(** ** Symbol Locator *)

Definition findAndExtractEnumTextFromFile (file : SourceFile) (enumName : string)
  : option string :=
  match getEnum file enumName with
  | Some d => if JS.truthy (d_text d) then Some (d_text d) else None
  | None => None
  end.

Definition findAndExtractTypeTextFromFile (file : SourceFile) (aliasName : string)
  : option string :=
  match getTypeAlias file aliasName with
  | Some d => if JS.truthy (d_text d) then Some (d_text d) else None
  | None => None
  end.

(** [found?.indexOf("export") !== 1 ? "export" : ""]; on [null] the
    optional chain gives [undefined], which differs from 1. *)
Definition exportPrefix (found : option string) : string :=
  match found with
  | Some s => if (JS.indexOf s "export" =? 1)%Z then EmptyString else "export"
  | None => "export"
  end.

(** [currentFile.getImportDeclarations().find(d => namedImports.find(ni => ni.name === v))] *)
Definition findImportNaming (file : SourceFile) (v : string) : option ImportDeclaration :=
  find (fun d => existsb (fun ni => String.eqb ni v) (i_namedImports d)) (f_imports file).

Section Locator.
Context `{Host}.
Variable project : Project.

Definition searchForEnumInFiles (currentFile : SourceFile) (enumValue : string)
  : result string :=
  match findAndExtractEnumTextFromFile currentFile enumValue with
  | Some foundEnum =>
      Ok (exportPrefix (Some foundEnum) +:+ " " +:+ foundEnum +:+ JS.nl +:+ JS.nl)
  | None =>
      match findImportNaming currentFile enumValue with
      | None => Err ("Could not find import declaration for enum " +:+ enumValue)
      | Some importedModule =>
          let specifier := i_moduleSpecifier importedModule +:+ ".ts" in
          match getSourceFile project
                  (path_resolve [f_directoryPath currentFile; specifier]) with
          | None => Err ("could not find file at path " +:+ specifier)
          | Some specifiedFile =>
              let foundEnum := findAndExtractEnumTextFromFile specifiedFile enumValue in
              Ok (JS.nl +:+ JS.spaces 7 +:+ "// "
                  +:+ JS.show_undefined (JS.pop (JS.split "/" specifier))
                  +:+ JS.nl +:+ JS.spaces 7 +:+ exportPrefix foundEnum
                  +:+ " " +:+ JS.show_null foundEnum +:+ JS.nl +:+ JS.nl)
          end
      end
  end.

Definition searchForTypeAliasInFiles (currentFile : SourceFile) (aliasValue : string)
  : result string :=
  match findAndExtractTypeTextFromFile currentFile aliasValue with
  | Some foundAlias =>
      Ok (exportPrefix (Some foundAlias) +:+ " " +:+ foundAlias +:+ JS.nl +:+ JS.nl)
  | None =>
      match findImportNaming currentFile aliasValue with
      | None => Err ("Could not find import declaration for typeAlias " +:+ aliasValue)
      | Some importedModule =>
          let specifier := i_moduleSpecifier importedModule +:+ ".ts" in
          match getSourceFile project
                  (path_resolve [f_directoryPath currentFile; specifier]) with
          | None => Err ("could not find file at path " +:+ specifier)
          | Some specifiedFile =>
              let foundAlias := findAndExtractTypeTextFromFile specifiedFile aliasValue in
              Ok (JS.nl +:+ JS.spaces 9 +:+ "// "
                  +:+ JS.show_undefined (JS.pop (JS.split "/" specifier))
                  +:+ JS.nl +:+ JS.spaces 9 +:+ exportPrefix foundAlias
                  +:+ " " +:+ JS.show_null foundAlias +:+ JS.nl +:+ JS.nl)
          end
      end
  end.

End Locator.

(** ** Extends-Clause Resolver (the [forEachChild] callback of [run]) *)

Record ExtendArgsType := {
  isPartial : bool;
  arg : string
}.

(** [node?.getFirstChild()?.getText()?.toLowerCase() === "PartialType".toLowerCase()] *)
Definition calleeIsPartialType (node : Node) : bool :=
  match getFirstChild node with
  | Some callee =>
      String.eqb (JS.toLowerCase (getText callee)) (JS.toLowerCase "PartialType")
  | None => false
  end.

Definition pushArg (partial : bool) (extendArgs : list ExtendArgsType) (n : Node)
  : list ExtendArgsType :=
  extendArgs ++ [ {| isPartial := partial;
                     arg := JS.replace "," EmptyString (getText n) |} ].

Definition visitExtendsChild (extendArgs : list ExtendArgsType) (node : Node)
  : list ExtendArgsType :=
  let extendArgs1 :=
    if SyntaxKind_eqb (getKind node) CallExpression then
      if calleeIsPartialType node then
        fold_left (pushArg true) (getChildrenOfKind SyntaxList node) extendArgs
      else extendArgs
    else extendArgs in
  if SyntaxKind_eqb (getKind node) Identifier
  then pushArg false extendArgs1 node
  else extendArgs1.

(** [c.getExtends()?.forEachChild(...)], starting from [extendArgs = []] *)
Definition collectExtendArgs (c : ClassDeclaration) : list ExtendArgsType :=
  match c_extends c with
  | Some e => fold_left visitExtendsChild (forEachChildNodes e) []
  | None => []
  end.

(** ** Text templates of the Class Transformer and the Output Assembler *)

Definition getExtendedType (a : ExtendArgsType) : string :=
  if isPartial a then "Partial<" +:+ arg a +:+ ">" else arg a.

Definition getTypePropertiesOrReturnAnyRecord (properties : list string)
  (isExtending : bool) : string :=
  match properties with
  | _ :: _ =>
      (if isExtending then "& " else EmptyString) +:+ " {" +:+ JS.nl
      +:+ JS.spaces 15 +:+ JS.join (";" +:+ JS.nl) properties +:+ JS.nl
      +:+ JS.spaces 11 +:+ "};"
  | [] => if isExtending then EmptyString else "Record<string, any>"
  end.

Definition getFinalContentTemplate (namespace innerContent : string) : string :=
  JS.nl +:+ JS.spaces 11 +:+ "namespace " +:+ namespace +:+ " {" +:+ JS.nl
  +:+ JS.spaces 15 +:+ innerContent +:+ JS.nl
  +:+ JS.spaces 11 +:+ "}" +:+ JS.nl
  +:+ JS.spaces 7.

Definition getExtendedClassContent (className classComment : string)
  (extendArgs : list ExtendArgsType) (properties : list string) : string :=
  let resolvedArgs := JS.join "& " (map getExtendedType extendArgs) in
  JS.nl +:+ JS.spaces 7 +:+ classComment +:+ JS.nl
  +:+ JS.spaces 7 +:+ "export type " +:+ className +:+ " = " +:+ resolvedArgs +:+ JS.nl
  +:+ JS.spaces 7 +:+ getTypePropertiesOrReturnAnyRecord properties true +:+ ";".

Definition getNormalClassContent (className classComment : string)
  (properties : list string) : string :=
  JS.nl +:+ JS.spaces 7 +:+ classComment +:+ JS.nl
  +:+ JS.spaces 7 +:+ "export type " +:+ className +:+ " = "
  +:+ getTypePropertiesOrReturnAnyRecord properties false +:+ ";".

(** ** Process state and the monad of [run]

    [globalContent] and [classTypeMaps] are the module-level variables of
    [index.ts]; [disk] holds what [writeFileSync] stored, by path.  A
    thrown error keeps the state reached so far: files already written
    stay written. *)

Record World := {
  globalContent : string;
  classTypeMaps : gmap string string;
  disk : gmap string string
}.

(** Module initialisation: [let globalContent = ""; let classTypeMaps = {}],
    over whatever the disk holds when the process starts. *)
Definition freshWorld (d : gmap string string) : World :=
  {| globalContent := EmptyString; classTypeMaps := ∅; disk := d |}.

Inductive Outcome (A : Type) :=
| Done (a : A) (w : World)
| Thrown (msg : string) (w : World).
Arguments Done {A} a w.
Arguments Thrown {A} msg w.

Definition M (A : Type) : Type := World -> Outcome A.

#[global] Instance M_ret : MRet M := fun A a w => Done a w.

#[global] Instance M_bind : MBind M := fun A B k m w =>
  match m w with
  | Done a w' => k a w'
  | Thrown msg w' => Thrown msg w'
  end.

Definition throw {A} (msg : string) : M A := fun w => Thrown msg w.

(** [globalContent += text] *)
Definition appendGlobal (text : string) : M unit :=
  fun w => Done tt {| globalContent := globalContent w +:+ text;
                      classTypeMaps := classTypeMaps w;
                      disk := disk w |}.

(** [obj[key] = value] on an object created by [{}], for a string value:
    every key becomes an own property, except [__proto__], which reaches the
    setter inherited from [Object.prototype]; that setter ignores a value
    that is neither an object nor [null]. *)
Definition assignKey (obj : gmap string string) (key value : string)
  : gmap string string :=
  if String.eqb key "__proto__" then obj else <[key := value]> obj.

(** [classTypeMaps[className] = text] *)
Definition setClassType (className text : string) : M unit :=
  fun w => Done tt {| globalContent := globalContent w;
                      classTypeMaps := assignKey (classTypeMaps w) className text;
                      disk := disk w |}.

(** [writeFileSync(filename, content)] *)
Definition writeFile (filename content : string) : M unit :=
  fun w => Done tt {| globalContent := globalContent w;
                      classTypeMaps := classTypeMaps w;
                      disk := <[filename := content]> (disk w) |}.

Definition readGlobal : M string := fun w => Done (globalContent w) w.

(** A call that may throw. *)
Definition lift {A} (r : result A) : M A :=
  match r with
  | Ok a => mret a
  | Err msg => throw msg
  end.

(** [xs.map(f)] where [f] has effects: left to right, stopping at a throw. *)
Fixpoint mapM {A B} (f : A -> M B) (l : list A) : M (list B) :=
  match l with
  | [] => mret []
  | x :: rest =>
      y ← f x;
      ys ← mapM f rest;
      mret (y :: ys)
  end.

(** [xs.forEach(f)] where [f] updates a local variable of the caller. *)
Fixpoint foldM {A S} (f : S -> A -> M S) (s : S) (l : list A) : M S :=
  match l with
  | [] => mret s
  | x :: rest =>
      s' ← f s x;
      foldM f s' rest
  end.

(** ** Property Emitter *)

Inductive RefType := RefEnum | RefTypeAlias.

Definition getRefType (p : PropertyDeclaration) : option RefType :=
  match p_typeNode p with
  | Some tn =>
      if SyntaxKind_eqb (tn_kind tn) TypeReference
      then if p_typeIsEnum p then Some RefEnum else Some RefTypeAlias
      else None
  | None => None
  end.

(** [p.getStructure().type] *)
Definition propertyValue (p : PropertyDeclaration) : option string :=
  option_map tn_text (p_typeNode p).

(** [propertyValue?.toString()] where the code passes it to the locator:
    there [getRefType] has answered, so the annotation exists. *)
Definition propertyValueString (p : PropertyDeclaration) : string :=
  match propertyValue p with
  | Some t => t
  | None => EmptyString
  end.

(** The field line returned by the [map] callback. *)
Definition fieldLine (p : PropertyDeclaration) : string :=
  JS.nl +:+ JS.spaces 15 +:+ JS.join EmptyString (p_jsDocs p) +:+ JS.nl
  +:+ JS.spaces 17 +:+ p_name p
  +:+ (if p_hasQuestionToken p then "?" else EmptyString)
  +:+ ": " +:+ JS.show_undefined (propertyValue p) +:+ JS.nl
  +:+ JS.spaces 17.

Section Generator.
Context `{Host}.
Variable project : Project.

(** [if (found) { globalContent += found; }] *)
Definition accumulate (found : string) : M unit :=
  if JS.truthy found then appendGlobal found else mret tt.

Definition emitProperty (currentFile : SourceFile) (p : PropertyDeclaration)
  : M string :=
  let typeKind := getRefType p in
  let isEnumValue := match typeKind with Some RefEnum => true | _ => false end in
  let isTypeRefValue := match typeKind with Some RefTypeAlias => true | _ => false end in
  (if isEnumValue
   then foundEnum ← lift (searchForEnumInFiles project currentFile
                             (propertyValueString p));
        accumulate foundEnum
   else mret tt) ;;
  (if isTypeRefValue
   then foundTypeAlias ← lift (searchForTypeAliasInFiles project currentFile
                                  (propertyValueString p));
        accumulate foundTypeAlias
   else mret tt) ;;
  mret (fieldLine p).

Definition getPropertiesInTextFormat (currentFile : SourceFile)
  (c : ClassDeclaration) : M (list string) :=
  mapM (emitProperty currentFile) (c_properties c).

(** ** Class Transformer: the callback of [file.getClasses().forEach];
    [content] is the local variable it appends to. *)
Definition transformClass (currentFile : SourceFile) (content : string)
  (c : ClassDeclaration) : M string :=
  let className := JS.show_undefined (c_name c) in
  let classComment := JS.join EmptyString (c_jsDocs c) in
  properties ← getPropertiesInTextFormat currentFile c;
  let extendArgs := collectExtendArgs c in
  match extendArgs with
  | _ :: _ =>
      let extClassContent :=
        getExtendedClassContent className classComment extendArgs properties in
      setClassType className extClassContent ;;
      mret (content +:+ extClassContent)
  | [] =>
      let normalClassContent :=
        getNormalClassContent className classComment properties in
      setClassType className normalClassContent ;;
      mret (content +:+ normalClassContent)
  end.

(** ** Output Assembler and the per-file callback of [run] *)

Record CliOptions := {
  pattern : list string;
  outDir : string;
  outFile : string;
  namespace : string
}.

Definition fileHeader (filename : string) : string :=
  JS.nl +:+ JS.spaces 11 +:+ "// " +:+ filename +:+ JS.nl +:+ JS.spaces 7.

(** [filesToWrite.map(f => `${f.content}\n\n`).join("")] *)
Definition innerContentOf (filesToWrite : list (string * string)) : string :=
  JS.join EmptyString (map (fun f => snd f +:+ JS.nl +:+ JS.nl) filesToWrite).

Definition tempPath (cliOptions : CliOptions) : string :=
  path_resolve [path_join [cwd; outDir cliOptions; "types.temp"]].

Definition outPath (cliOptions : CliOptions) : string :=
  path_resolve [path_join [cwd; outDir cliOptions; outFile cliOptions]].

Definition processFile (cliOptions : CliOptions)
  (filesToWrite : list (string * string)) (file : SourceFile)
  : M (list (string * string)) :=
  let filename := f_baseName file in
  content ← foldM (transformClass file) (fileHeader filename) (f_classes file);
  let filesToWrite' := (filesToWrite ++ [(filename, content)])%list in
  let innerContent := innerContentOf filesToWrite' in
  g ← readGlobal;
  let finalContent :=
    getFinalContentTemplate (namespace cliOptions) (g +:+ " " +:+ innerContent) in
  writeFile (tempPath cliOptions) (g +:+ " " +:+ innerContent) ;;
  formatted ← lift (format finalContent);
  writeFile (outPath cliOptions) formatted ;;
  mret filesToWrite'.

(** The [files.forEach(...)] of [run], from [filesToWrite = []].  What [run]
    does before it, reading the options, creating the output directory and
    loading [files] with [project.addSourceFilesAtPaths], is the work of its
    collaborators: [cliOptions] are the validated options and [files] the
    files loaded for them. *)
Definition run (cliOptions : CliOptions) (files : list SourceFile)
  : M (list (string * string)) :=
  foldM (processFile cliOptions) [] files.

End Generator.

(** ** Option validation

    [cliOptions] as [command-line-args] hands it over: an option that was
    not given is absent. *)

Record ParsedOptions := {
  opt_pattern : option (list string);
  opt_outDir : option string;
  opt_outFile : option string;
  opt_namespace : option string
}.

(** Each test is [!value]: an absent option and an empty one fail alike. *)
Definition readCliOptions (cliOptions : ParsedOptions) : result CliOptions :=
  match opt_pattern cliOptions with
  | None | Some [] => Err "Please provide --pattern for source files"
  | Some (p :: ps) =>
      match opt_outDir cliOptions with
      | None | Some EmptyString => Err "Please provide --outDir for output directory"
      | Some (String _ _ as dir) =>
          match opt_outFile cliOptions with
          | None | Some EmptyString =>
              Err "Please provide --outFile for output filename"
          | Some (String _ _ as file) =>
              match opt_namespace cliOptions with
              | None | Some EmptyString =>
                  Err "Please provide --namespace for exported namespace"
              | Some (String _ _ as ns) =>
                  Ok {| pattern := p :: ps; outDir := dir;
                        outFile := file; namespace := ns |}
              end
          end
      end
  end.

(** ** Sample inputs

    A host whose path functions normalise segments the way node's do for
    absolute paths, whose formatter returns its input, and a few small
    projects. *)

Module Samples.

Fixpoint normSegments (acc : list string) (segs : list string) : list string :=
  match segs with
  | [] => rev acc
  | s :: rest =>
      if String.eqb s EmptyString then normSegments acc rest
      else if String.eqb s "." then normSegments acc rest
      else if String.eqb s ".." then normSegments (tail acc) rest
      else normSegments (s :: acc) rest
  end.

Definition normPath (parts : list string) : string :=
  "/" +:+ JS.join "/" (normSegments [] (flat_map (JS.split "/") parts)).

#[global] Instance host : Host := {|
  cwd := "/w";
  path_join := normPath;
  path_resolve := normPath;
  format := fun s => Ok s
|}.

Definition cli : CliOptions :=
  {| pattern := ["/src/**/*.dto.ts"]; outDir := "/sdk";
     outFile := "defs.d.ts"; namespace := "Api" |}.

Definition refProp (name type : string) (isEnum : bool) : PropertyDeclaration :=
  {| p_name := name; p_hasQuestionToken := false;
     p_typeNode := Some {| tn_kind := TypeReference; tn_text := type |};
     p_jsDocs := []; p_typeIsEnum := isEnum |}.

Definition plainProp (name type doc : string) (opt : bool) : PropertyDeclaration :=
  {| p_name := name; p_hasQuestionToken := opt;
     p_typeNode := Some {| tn_kind := OtherKind 0; tn_text := type |};
     p_jsDocs := [doc]; p_typeIsEnum := false |}.

Definition dtoFile (base : string) (classes : list ClassDeclaration)
  (enums aliases : list NamedDecl) (imports : list ImportDeclaration) : SourceFile :=
  {| f_filePath := "/w/src/" +:+ base; f_directoryPath := "/w/src";
     f_baseName := base; f_classes := classes; f_enums := enums;
     f_typeAliases := aliases; f_imports := imports |}.

(** [class Foo { status: Status }] next to [enum Status { A }] *)
Definition Foo : ClassDeclaration :=
  {| c_name := Some "Foo"; c_jsDocs := [];
     c_properties := [refProp "status" "Status" true]; c_extends := None |}.

Definition fooFile : SourceFile :=
  dtoFile "foo.dto.ts" [Foo] [ {| d_name := "Status"; d_text := "enum Status { A }" |} ] [] [].

(** The text handed to the formatter for [fooFile] alone *)
Definition fooFinal : string :=
  JS.nl +:+ JS.spaces 11 +:+ "namespace Api {" +:+ JS.nl +:+ JS.spaces 15
  +:+ "export enum Status { A }" +:+ JS.nl +:+ JS.nl +:+ " "
  +:+ JS.nl +:+ JS.spaces 11 +:+ "// foo.dto.ts" +:+ JS.nl +:+ JS.spaces 7
  +:+ JS.nl +:+ JS.spaces 7 +:+ JS.nl +:+ JS.spaces 7
  +:+ "export type Foo =  {" +:+ JS.nl +:+ JS.spaces 15
  +:+ JS.nl +:+ JS.spaces 15 +:+ JS.nl +:+ JS.spaces 17
  +:+ "status: Status" +:+ JS.nl +:+ JS.spaces 17 +:+ JS.nl +:+ JS.spaces 11
  +:+ "};;" +:+ JS.nl +:+ JS.nl +:+ JS.nl +:+ JS.spaces 11 +:+ "}"
  +:+ JS.nl +:+ JS.spaces 7.

(** The same with [export enum Status { A }] and [export type Id = string] *)
Definition exportedFile : SourceFile :=
  dtoFile "foo.dto.ts" [Foo]
    [ {| d_name := "Status"; d_text := "export enum Status { A }" |} ]
    [ {| d_name := "Id"; d_text := "export type Id = string" |} ] [].

(** [import { Color } from './colors'] where [colors.ts] is loaded but only
    re-exports [Color]: it declares no enum of that name. *)
Definition Bar : ClassDeclaration :=
  {| c_name := Some "Bar"; c_jsDocs := [];
     c_properties := [refProp "color" "Color" true]; c_extends := None |}.

Definition barFile : SourceFile :=
  dtoFile "bar.dto.ts" [Bar] [] []
    [ {| i_moduleSpecifier := "./colors"; i_namedImports := ["Color"] |} ].

Definition colorsFile : SourceFile := dtoFile "colors.ts" [] [] [] [].

Definition barProject : Project := [barFile; colorsFile].

(** The same import where [colors.ts] holds [export enum Color { Red }] *)
Definition colorsExporting : SourceFile :=
  dtoFile "colors.ts" []
    [ {| d_name := "Color"; d_text := "export enum Color { Red }" |} ] [] [].

Definition paletteProject : Project := [barFile; colorsExporting].

(** [class Qux { meta: Meta }] with [import { Meta } from './meta'], where
    [meta.ts] is loaded and declares no type alias [Meta] *)
Definition Qux : ClassDeclaration :=
  {| c_name := Some "Qux"; c_jsDocs := [];
     c_properties := [refProp "meta" "Meta" false]; c_extends := None |}.

Definition quxFile : SourceFile :=
  dtoFile "qux.dto.ts" [Qux] [] []
    [ {| i_moduleSpecifier := "./meta"; i_namedImports := ["Meta"] |} ].

Definition metaFile : SourceFile := dtoFile "meta.ts" [] [] [] [].

Definition quxProject : Project := [quxFile; metaFile].

(** [class Baz { meta: Meta }] with neither a declaration nor an import of [Meta] *)
Definition Baz : ClassDeclaration :=
  {| c_name := Some "Baz"; c_jsDocs := [];
     c_properties := [refProp "meta" "Meta" false]; c_extends := None |}.

Definition bazFile : SourceFile := dtoFile "baz.dto.ts" [Baz] [] [] [].

(** [class Two { a: Status; b: Status }] next to [enum Status { A }] *)
Definition Two : ClassDeclaration :=
  {| c_name := Some "Two"; c_jsDocs := [];
     c_properties := [refProp "a" "Status" true; refProp "b" "Status" true];
     c_extends := None |}.

Definition twoFile : SourceFile :=
  dtoFile "two.dto.ts" [Two] [ {| d_name := "Status"; d_text := "enum Status { A }" |} ] [] [].

(** [class Empty {}] *)
Definition Empty : ClassDeclaration :=
  {| c_name := Some "Empty"; c_jsDocs := []; c_properties := []; c_extends := None |}.

(** [class Plain { /** id */ id: string; note?: string }] *)
Definition Plain : ClassDeclaration :=
  {| c_name := Some "Plain"; c_jsDocs := [];
     c_properties := [plainProp "id" "string" "/** id */" false;
                      plainProp "note" "string" EmptyString true];
     c_extends := None |}.

End Samples.

(** ** Shapes of the syntax tree

    The tree the TypeScript parser builds for a call [callee(a1, ..., aK)]:
    [getChildren] gives the callee, the parentheses and one syntax list
    holding the whole argument list; [forEachChild] visits the callee and
    the arguments. *)

Definition leaf (k : SyntaxKind) (t : string) : Node := mkNode k t [] [].

Definition OpenParenToken : SyntaxKind := OtherKind 21.
Definition CloseParenToken : SyntaxKind := OtherKind 22.
Definition CommaToken : SyntaxKind := OtherKind 28.

Fixpoint commaSeparated (args : list string) (trailingComma : bool) : list Node :=
  match args with
  | [] => []
  | [a] => leaf Identifier a :: (if trailingComma then [leaf CommaToken ","] else [])
  | a :: rest =>
      leaf Identifier a :: leaf CommaToken "," :: commaSeparated rest trailingComma
  end.

Definition argumentList (args : list string) (trailingComma : bool) : Node :=
  mkNode SyntaxList
    (JS.join ", " args +:+ (if trailingComma then "," else EmptyString))
    (commaSeparated args trailingComma)
    (map (leaf Identifier) args).

Definition callExpression (callee : string) (args : list string)
  (trailingComma : bool) : Node :=
  mkNode CallExpression
    (callee +:+ "(" +:+ getText (argumentList args trailingComma) +:+ ")")
    [leaf Identifier callee; leaf OpenParenToken "(";
     argumentList args trailingComma; leaf CloseParenToken ")"]
    (leaf Identifier callee :: map (leaf Identifier) args).

(** The heritage expression [extends <expr>] whose children are [nodes]. *)
Definition heritage (nodes : list Node) : Node :=
  mkNode (OtherKind 233) EmptyString nodes nodes.

Definition classExtending (name : string) (nodes : list Node)
  (properties : list PropertyDeclaration) : ClassDeclaration :=
  {| c_name := Some name; c_jsDocs := []; c_properties := properties;
     c_extends := Some (heritage nodes) |}.

(** A call whose arguments are arbitrary expressions, and a call with type
    arguments [callee<T1, ...>(a1, ...)]: there [getChildren] gives two
    syntax lists, the type arguments and then the arguments. *)

Definition LessThanToken : SyntaxKind := OtherKind 30.
Definition GreaterThanToken : SyntaxKind := OtherKind 32.
Definition ArrayLiteralExpression : SyntaxKind := OtherKind 209.

Fixpoint commaSeparatedNodes (items : list Node) : list Node :=
  match items with
  | [] => []
  | [a] => [a]
  | a :: rest => a :: leaf CommaToken "," :: commaSeparatedNodes rest
  end.

Definition nodeList (items : list Node) : Node :=
  mkNode SyntaxList (JS.join ", " (map getText items))
    (commaSeparatedNodes items) items.

Definition callOf (callee : string) (arguments : list Node) : Node :=
  mkNode CallExpression
    (callee +:+ "(" +:+ getText (nodeList arguments) +:+ ")")
    [leaf Identifier callee; leaf OpenParenToken "(";
     nodeList arguments; leaf CloseParenToken ")"]
    (leaf Identifier callee :: arguments).

Definition genericCallOf (callee : string) (typeArguments arguments : list Node)
  : Node :=
  mkNode CallExpression
    (callee +:+ "<" +:+ getText (nodeList typeArguments) +:+ ">("
     +:+ getText (nodeList arguments) +:+ ")")
    [leaf Identifier callee; leaf LessThanToken "<"; nodeList typeArguments;
     leaf GreaterThanToken ">"; leaf OpenParenToken "(";
     nodeList arguments; leaf CloseParenToken ")"]
    (leaf Identifier callee :: typeArguments ++ arguments).

(** ** Spec-side notions used to state the claims *)

(** The Partial-wrapped term built from one syntax list. *)
Definition partialTerm (sl : Node) : ExtendArgsType :=
  {| isPartial := true; arg := JS.replace "," EmptyString (getText sl) |}.

Definition plainTerm (name : string) : ExtendArgsType :=
  {| isPartial := false; arg := name |}.

(** The state with the accumulator replaced. *)
Definition withGlobal (w : World) (g : string) : World :=
  {| globalContent := g; classTypeMaps := classTypeMaps w; disk := disk w |}.

Definition withClassType (w : World) (className text : string) : World :=
  {| globalContent := globalContent w;
     classTypeMaps := assignKey (classTypeMaps w) className text;
     disk := disk w |}.

(** The declaration [transformClass] builds from a class and its field lines. *)
Definition classContent (c : ClassDeclaration) (properties : list string) : string :=
  match collectExtendArgs c with
  | _ :: _ =>
      getExtendedClassContent (JS.show_undefined (c_name c))
        (JS.join EmptyString (c_jsDocs c)) (collectExtendArgs c) properties
  | [] =>
      getNormalClassContent (JS.show_undefined (c_name c))
        (JS.join EmptyString (c_jsDocs c)) properties
  end.

(** A text without its layout characters: the external formatter decides
    spacing and line breaks, the generator decides the rest. *)
Fixpoint unspaced (s : string) : string :=
  match s with
  | EmptyString => EmptyString
  | String c s' => if Ascii.is_space c then unspaced s' else String c (unspaced s')
  end.

Section Resolution.
Context `{Host}.
Variable project : Project.

(** What the Property Emitter obtains from the Symbol Locator for one
    property: the text it appends (empty when it asks nothing), or the
    error that is thrown. *)
Definition resolveProperty (currentFile : SourceFile) (p : PropertyDeclaration)
  : result string :=
  match getRefType p with
  | Some RefEnum => searchForEnumInFiles project currentFile (propertyValueString p)
  | Some RefTypeAlias =>
      searchForTypeAliasInFiles project currentFile (propertyValueString p)
  | None => Ok EmptyString
  end.

(** The texts resolved for a list of properties, left to right, up to the
    first error, and that error if there is one. *)
Fixpoint resolveAll (currentFile : SourceFile) (ps : list PropertyDeclaration)
  : string * option string :=
  match ps with
  | [] => (EmptyString, None)
  | p :: rest =>
      match resolveProperty currentFile p with
      | Err msg => (EmptyString, Some msg)
      | Ok t =>
          let '(ts, e) := resolveAll currentFile rest in (t +:+ ts, e)
      end
  end.

End Resolution.

(** The declaration of the requested kind a file holds under a name, and
    its text as the locator extracts it. *)
Definition lookupDecl (k : RefType) (f : SourceFile) (name : string)
  : option NamedDecl :=
  match k with
  | RefEnum => getEnum f name
  | RefTypeAlias => getTypeAlias f name
  end.

Definition extractDecl (k : RefType) (f : SourceFile) (name : string)
  : option string :=
  match k with
  | RefEnum => findAndExtractEnumTextFromFile f name
  | RefTypeAlias => findAndExtractTypeTextFromFile f name
  end.

(** The word the error messages use for a kind. *)
Definition kindWord (k : RefType) : string :=
  match k with
  | RefEnum => "enum"
  | RefTypeAlias => "typeAlias"
  end.

(** All properties of a file, class after class. *)
Definition allProperties (f : SourceFile) : list PropertyDeclaration :=
  flat_map c_properties (f_classes f).

(** A computation that throws from every state. *)
Definition alwaysThrows {A} (m : M A) : Prop :=
  forall w, exists msg w', m w = Thrown msg w'.

(** Number of positions of [s] at which [sub] starts. *)
Fixpoint occurrences (sub s : string) : nat :=
  (if String.prefix sub s then 1 else 0)
  + match s with
    | EmptyString => 0
    | String _ s' => occurrences sub s'
    end.

(** A sequence of writes applied to a disk, first write first. *)
Definition applyWrites (ws : list (string * string)) (d : gmap string string)
  : gmap string string :=
  fold_left (fun m kv => <[fst kv := snd kv]> m) ws d.

Definition finish {A} (o : result A) (w : World) : Outcome A :=
  match o with
  | Ok a => Done a w
  | Err msg => Thrown msg w
  end.

Definition worldOf {A} (o : Outcome A) : World :=
  match o with
  | Done _ w => w
  | Thrown _ w => w
  end.

(** A computation that never reads the disk: from given values of the
    module variables, its result, the values it leaves in them and the
    writes it performs are the same on every disk. *)
Definition diskOblivious {A} (m : M A) : Prop :=
  forall (g : string) (c : gmap string string),
  exists (ws : list (string * string)) (o : result A)
         (g' : string) (c' : gmap string string),
  forall d : gmap string string,
    m {| globalContent := g; classTypeMaps := c; disk := d |}
    = finish o {| globalContent := g'; classTypeMaps := c';
                  disk := applyWrites ws d |}.

(** ** Notions used to state further properties of the code *)

(** The terms one child of the heritage expression stands for. *)
Definition termsOfChild (node : Node) : list ExtendArgsType :=
  match getKind node with
  | CallExpression =>
      if calleeIsPartialType node
      then map partialTerm (getChildrenOfKind SyntaxList node)
      else []
  | Identifier => [plainTerm (JS.replace "," EmptyString (getText node))]
  | _ => []
  end.

Fixpoint concatStrings (l : list string) : string :=
  match l with
  | [] => EmptyString
  | x :: rest => x +:+ concatStrings rest
  end.

(** The declaration emitted for a class, from its own data alone. *)
Definition declOf (c : ClassDeclaration) : string :=
  classContent c (map fieldLine (c_properties c)).

(** The output fragment of a file: its header, then its classes in order. *)
Definition fileContent (f : SourceFile) : string :=
  fileHeader (f_baseName f) +:+ concatStrings (map declOf (f_classes f)).

(** [classTypeMaps] after recording classes one after the other. *)
Definition recordClasses (cs : list ClassDeclaration) (m : gmap string string)
  : gmap string string :=
  fold_left (fun m c => assignKey m (JS.show_undefined (c_name c)) (declOf c)) cs m.

(** The texts resolved for all properties of the given files, in file,
    class and property order. *)
Definition resolvedTexts `{Host} (project : Project) (files : list SourceFile)
  : string :=
  concatStrings (map (fun f => fst (resolveAll project f (allProperties f))) files).

(** A computation each of whose runs, returning or throwing, relates the
    state it starts from to the state it ends in by [R]. *)
Definition keeps (R : World -> World -> Prop) {A} (m : M A) : Prop :=
  forall w, R w (worldOf (m w)).

(** The disk away from the two output paths is the same. *)
Definition sameElsewhere (paths : list string) (w w' : World) : Prop :=
  forall path, ~ In path paths -> disk w' !! path = disk w !! path.

(** The accumulator has only grown at its end. *)
Definition accumulatorExtended (w w' : World) : Prop :=
  exists t, globalContent w' = globalContent w +:+ t.

Module MoreSamples.

(** [class Gone { kind: Kind }] with [import { Kind } from './gone'], where
    no file [gone.ts] is loaded *)
Definition Gone : ClassDeclaration :=
  {| c_name := Some "Gone"; c_jsDocs := [];
     c_properties := [Samples.refProp "kind" "Kind" true]; c_extends := None |}.

Definition goneFile : SourceFile :=
  Samples.dtoFile "gone.dto.ts" [Gone] [] []
    [ {| i_moduleSpecifier := "./gone"; i_namedImports := ["Kind"] |} ].

(** [class Card { meta: Meta }] with [import { Meta } from '../shared/meta'],
    where [/w/shared/meta.ts] holds [export type Meta = { id: string }] *)
Definition Card : ClassDeclaration :=
  {| c_name := Some "Card"; c_jsDocs := [];
     c_properties := [Samples.refProp "meta" "Meta" false]; c_extends := None |}.

Definition cardFile : SourceFile :=
  Samples.dtoFile "card.dto.ts" [Card] [] []
    [ {| i_moduleSpecifier := "../shared/meta"; i_namedImports := ["Meta"] |} ].

Definition sharedMeta : SourceFile :=
  {| f_filePath := "/w/shared/meta.ts"; f_directoryPath := "/w/shared";
     f_baseName := "meta.ts"; f_classes := []; f_enums := [];
     f_typeAliases := [ {| d_name := "Meta";
                           d_text := "export type Meta = { id: string }" |} ];
     f_imports := [] |}.

Definition cardProject : Project := [cardFile; sharedMeta].

(** [class Slim extends OmitType(Base) { id: string }] *)
Definition Slim : ClassDeclaration :=
  classExtending "Slim" [callExpression "OmitType" ["Base"] false]
    [Samples.plainProp "id" "string" EmptyString false].

(** Two classes named [Dup] in one file *)
Definition Dup1 : ClassDeclaration :=
  {| c_name := Some "Dup"; c_jsDocs := [];
     c_properties := [Samples.plainProp "a" "string" EmptyString false];
     c_extends := None |}.

Definition Dup2 : ClassDeclaration :=
  {| c_name := Some "Dup"; c_jsDocs := []; c_properties := []; c_extends := None |}.

Definition dupFile : SourceFile := Samples.dtoFile "dup.dto.ts" [Dup1; Dup2] [] [] [].

(** A host whose formatter rejects every text *)
Definition strictHost : Host :=
  {| cwd := "/w"; path_join := Samples.normPath; path_resolve := Samples.normPath;
     format := fun _ => Err "SyntaxError" |}.

Definition fullOptions : ParsedOptions :=
  {| opt_pattern := Some ["/src/**/*.dto.ts"]; opt_outDir := Some "/sdk";
     opt_outFile := Some "defs.d.ts"; opt_namespace := Some "Api" |}.

End MoreSamples.

(** * Theorems *)

(** ** Symbol Locator *)

(** Where the emitter calls the locator, the property has a type
    annotation and the name passed is its text. *)
Lemma getRefType_annotated (p : PropertyDeclaration) (k : RefType) :
  getRefType p = Some k ->
  exists tn, p_typeNode p = Some tn
             /\ tn_kind tn = TypeReference
             /\ propertyValueString p = tn_text tn.
Proof.
  unfold getRefType, propertyValueString, propertyValue.
  destruct (p_typeNode p) as [tn|]; [|discriminate].
  destruct tn as [kind text]. simpl.
  destruct kind; simpl; try discriminate. eauto.
Qed.

(** A text that begins with [export] still gets the prefix, whatever
    follows. *)
Lemma exportPrefix_of_exported (rest : string) :
  exportPrefix (Some ("export" +:+ rest)) = "export".
Proof. destruct rest; reflexivity. Qed.

(** A declaration of the current file that begins with [export] is
    returned with the keyword twice. *)
Lemma searchForEnumInFiles_exported_twice `{Host} (project : Project)
  (currentFile : SourceFile) (enumValue rest : string) :
  findAndExtractEnumTextFromFile currentFile enumValue = Some ("export" +:+ rest) ->
  searchForEnumInFiles project currentFile enumValue
  = Ok ("export export" +:+ rest +:+ JS.nl +:+ JS.nl).
Proof.
  intros Hfound. unfold searchForEnumInFiles.
  rewrite Hfound, exportPrefix_of_exported. reflexivity.
Qed.

(** After the import hop a missing declaration is rendered as [null]; the
    text returned is never empty. *)
Lemma searchForEnumInFiles_absent_in_target `{Host} (project : Project)
  (currentFile specifiedFile : SourceFile) (importedModule : ImportDeclaration)
  (enumValue : string) :
  findAndExtractEnumTextFromFile currentFile enumValue = None ->
  findImportNaming currentFile enumValue = Some importedModule ->
  getSourceFile project
    (path_resolve [f_directoryPath currentFile;
                   i_moduleSpecifier importedModule +:+ ".ts"])
  = Some specifiedFile ->
  findAndExtractEnumTextFromFile specifiedFile enumValue = None ->
  exists found,
    searchForEnumInFiles project currentFile enumValue = Ok found
    /\ JS.truthy found = true
    /\ found = JS.nl +:+ JS.spaces 7 +:+ "// "
               +:+ JS.show_undefined
                     (JS.pop (JS.split "/" (i_moduleSpecifier importedModule +:+ ".ts")))
               +:+ JS.nl +:+ JS.spaces 7 +:+ "export null" +:+ JS.nl +:+ JS.nl.
Proof.
  intros Hcur Himp Hfile Htarget. unfold searchForEnumInFiles.
  rewrite Hcur, Himp, Hfile, Htarget. eexists. repeat split.
Qed.

(** C1 (evaluation at the failing input).  A declaration found in the
    current file whose text already begins with [export] comes back with a
    second [export] in front of it, for enums and for type aliases alike:
    [indexOf] answers 0 there and the code compares it with 1. *)
Theorem exported_declaration_prefixed_again :
  searchForEnumInFiles (H := Samples.host) [Samples.exportedFile]
      Samples.exportedFile "Status"
    = Ok ("export export enum Status { A }" +:+ JS.nl +:+ JS.nl)
  /\ searchForTypeAliasInFiles (H := Samples.host) [Samples.exportedFile]
      Samples.exportedFile "Id"
    = Ok ("export export type Id = string" +:+ JS.nl +:+ JS.nl)
  /\ searchForEnumInFiles (H := Samples.host) Samples.paletteProject
      Samples.barFile "Color"
    = Ok (JS.nl +:+ JS.spaces 7 +:+ "// colors.ts" +:+ JS.nl +:+ JS.spaces 7
          +:+ "export export enum Color { Red }" +:+ JS.nl +:+ JS.nl)
  /\ JS.indexOf "export enum Status { A }" "export" = 0%Z.
Proof. repeat split; reflexivity. Qed.

(** C2 (evaluation at the failing input).  The import names [Color], the
    target file [colors.ts] is loaded and declares no enum [Color]: the
    locator returns a text holding [export null], which is not empty, and
    the Property Emitter appends it to the accumulator. *)
Theorem absent_in_import_target_emits_null :
  let found := JS.nl +:+ JS.spaces 7 +:+ "// colors.ts" +:+ JS.nl
               +:+ JS.spaces 7 +:+ "export null" +:+ JS.nl +:+ JS.nl in
  findAndExtractEnumTextFromFile Samples.colorsFile "Color" = None
  /\ searchForEnumInFiles (H := Samples.host) Samples.barProject
       Samples.barFile "Color" = Ok found
  /\ JS.truthy found = true
  /\ (exists lines w,
        getPropertiesInTextFormat (H := Samples.host) Samples.barProject
          Samples.barFile Samples.Bar (freshWorld ∅) = Done lines w
        /\ globalContent w = found)
  /\ findAndExtractTypeTextFromFile Samples.metaFile "Meta" = None
  /\ (exists lines w,
        getPropertiesInTextFormat (H := Samples.host) Samples.quxProject
          Samples.quxFile Samples.Qux (freshWorld ∅) = Done lines w
        /\ globalContent w
           = JS.nl +:+ JS.spaces 9 +:+ "// meta.ts" +:+ JS.nl
             +:+ JS.spaces 9 +:+ "export null" +:+ JS.nl +:+ JS.nl).
Proof.
  cbv zeta. repeat split; try reflexivity.
  - eexists _, _. split; reflexivity.
  - eexists _, _. split; reflexivity.
Qed.

(** ** Strings *)

Lemma append_cons (c : ascii) (a b : string) :
  String c a +:+ b = String c (a +:+ b).
Proof. reflexivity. Qed.

Lemma append_nil_r (s : string) : s +:+ EmptyString = s.
Proof. induction s as [|c s IH]; [reflexivity|]. by rewrite append_cons, IH. Qed.

Lemma append_assoc (a b c : string) : (a +:+ b) +:+ c = a +:+ (b +:+ c).
Proof.
  induction a as [|x a IH]; [reflexivity|].
  by rewrite !append_cons, IH.
Qed.

(** ** Extends-Clause Resolver *)

Lemma pushArg_fold (partial : bool) (nodes : list Node) (acc : list ExtendArgsType) :
  fold_left (pushArg partial) nodes acc
  = acc ++ map (fun n => {| isPartial := partial;
                            arg := JS.replace "," EmptyString (getText n) |}) nodes.
Proof.
  revert acc. induction nodes as [|n nodes IH]; intros acc; simpl.
  - by rewrite app_nil_r.
  - rewrite IH. unfold pushArg. by rewrite <- app_assoc.
Qed.

(** What one child of the heritage expression contributes, whatever has
    been collected before it. *)
Lemma visitExtendsChild_app (acc : list ExtendArgsType) (node : Node) :
  visitExtendsChild acc node = acc ++ visitExtendsChild [] node.
Proof.
  unfold visitExtendsChild.
  destruct (SyntaxKind_eqb (getKind node) CallExpression);
    destruct (calleeIsPartialType node);
    destruct (SyntaxKind_eqb (getKind node) Identifier);
    rewrite ?pushArg_fold; unfold pushArg; simpl;
    rewrite ?app_nil_r, <- ?app_assoc; reflexivity.
Qed.

Lemma visitExtendsChild_fold (nodes : list Node) (acc : list ExtendArgsType) :
  fold_left visitExtendsChild nodes acc
  = acc ++ fold_left visitExtendsChild nodes [].
Proof.
  revert acc. induction nodes as [|n nodes IH]; intros acc; simpl.
  - by rewrite app_nil_r.
  - rewrite IH, (IH (visitExtendsChild [] n)), visitExtendsChild_app.
    by rewrite <- app_assoc.
Qed.

Lemma visitExtendsChild_partial_call (call : Node) :
  getKind call = CallExpression ->
  calleeIsPartialType call = true ->
  visitExtendsChild [] call = map partialTerm (getChildrenOfKind SyntaxList call).
Proof.
  intros Hk Hc. unfold visitExtendsChild. rewrite Hk, Hc. simpl.
  by rewrite pushArg_fold.
Qed.

Lemma replace_comma_free (X : string) :
  String.index 0 "," X = None ->
  JS.replace "," EmptyString X = X
  /\ JS.replace "," EmptyString (X +:+ ",") = X.
Proof.
  induction X as [|c X IH]; intros Hfree.
  - split; reflexivity.
  - cbn -[ascii_dec] in Hfree.
    change (String c X +:+ ",") with (String c (X +:+ ",")).
    cbn -[ascii_dec].
    destruct (ascii_dec "," c) as [Heq|Hne].
    + destruct X; discriminate.
    + destruct (String.index 0 "," X) eqn:E; [discriminate|].
      destruct (IH eq_refl) as [IH1 IH2].
      split; f_equal; assumption.
Qed.

(** C3 (counterexample).  The resolver does not give one term per
    argument.  [extends PartialType(A, B)]: two arguments, yet one term,
    whose text is the whole argument list without its first comma.
    [extends PartialType(OmitType(A, ['x']))]: one argument, yet the term
    is not that argument, it has lost the comma inside it.
    [extends PartialType<T>(X)]: one argument, yet two terms, the first of
    them for the type argument. *)
Lemma partialType_two_arguments_one_term :
  ~ (forall (callee : string) (args : list string),
        JS.toLowerCase callee = "partialtype" ->
        collectExtendArgs (classExtending "Patch" [callExpression callee args false] [])
        = map (fun a => {| isPartial := true; arg := a |}) args)
  /\ collectExtendArgs
       (classExtending "Patch"
          [callOf "PartialType"
             [callOf "OmitType"
                [leaf Identifier "A"; leaf ArrayLiteralExpression "['x']"]]] [])
     = [ {| isPartial := true; arg := "OmitType(A ['x'])" |} ]
  /\ collectExtendArgs
       (classExtending "Patch"
          [genericCallOf "PartialType" [leaf TypeReference "T"]
             [leaf Identifier "X"]] [])
     = [ {| isPartial := true; arg := "T" |}; {| isPartial := true; arg := "X" |} ].
Proof.
  split; [|split; reflexivity].
  intros Hclaim.
  specialize (Hclaim "PartialType" ["A"; "B"] eq_refl).
  vm_compute in Hclaim. discriminate.
Qed.

(** C3 (amended).  Let a child of the heritage expression be a call whose
    callee is [PartialType] in any letter case, written without type
    arguments, so that its only syntax list is its argument list, and
    applied to exactly one argument whose text [X] holds no comma, with or
    without a trailing comma after it.  Then this child contributes exactly
    one Partial-wrapped term, carrying [X] with the trailing comma
    stripped, between the terms of the children before and after it; the
    term is rendered [Partial<X>]. *)
Theorem partialType_single_argument_term
  (c : ClassDeclaration) (e call sl : Node) (before after : list Node)
  (X : string) (trailingComma : bool) :
  c_extends c = Some e ->
  forEachChildNodes e = before ++ call :: after ->
  getKind call = CallExpression ->
  calleeIsPartialType call = true ->
  getChildrenOfKind SyntaxList call = [sl] ->
  getText sl = X +:+ (if trailingComma then "," else EmptyString) ->
  X <> EmptyString ->
  String.index 0 "," X = None ->
  collectExtendArgs c
  = fold_left visitExtendsChild before []
    ++ [ {| isPartial := true; arg := X |} ]
    ++ fold_left visitExtendsChild after []
  /\ getExtendedType {| isPartial := true; arg := X |} = "Partial<" +:+ X +:+ ">".
Proof.
  intros He Hch Hk Hc Hsl Htext _ Hfree. split; [|reflexivity].
  unfold collectExtendArgs. rewrite He, Hch.
  rewrite fold_left_app. simpl.
  rewrite visitExtendsChild_fold.
  rewrite (visitExtendsChild_app _ call), visitExtendsChild_partial_call by assumption.
  rewrite Hsl. simpl. unfold partialTerm. rewrite Htext.
  destruct (replace_comma_free X Hfree) as [R1 R2].
  destruct trailingComma.
  - rewrite R2. by rewrite <- app_assoc.
  - rewrite append_nil_r, R1. by rewrite <- app_assoc.
Qed.

Lemma partialType_single_argument_term_witness :
  collectExtendArgs
    (classExtending "Patch" [callExpression "partialtype" ["CreateDto"] true] [])
  = [ {| isPartial := true; arg := "CreateDto" |} ]
  /\ getExtendedType {| isPartial := true; arg := "CreateDto" |}
     = "Partial<CreateDto>".
Proof.
  assert (Hname : "CreateDto" <> EmptyString) by discriminate.
  exact (partialType_single_argument_term
           (classExtending "Patch" [callExpression "partialtype" ["CreateDto"] true] [])
           (heritage [callExpression "partialtype" ["CreateDto"] true])
           (callExpression "partialtype" ["CreateDto"] true)
           (argumentList ["CreateDto"] true) [] [] "CreateDto" true
           eq_refl eq_refl eq_refl eq_refl eq_refl eq_refl Hname eq_refl).
Defined.

(** ** The monad *)

Lemma bind_run {A B} (m : M A) (k : A -> M B) (w : World) :
  (m ≫= k) w = match m w with
               | Done a w' => k a w'
               | Thrown msg w' => Thrown msg w'
               end.
Proof. reflexivity. Qed.

Lemma withGlobal_same (w : World) : withGlobal w (globalContent w) = w.
Proof. by destruct w. Qed.

Lemma unspaced_app (a b : string) : unspaced (a +:+ b) = unspaced a +:+ unspaced b.
Proof.
  induction a as [|c a IH]; [reflexivity|].
  rewrite append_cons. simpl. rewrite IH. by destruct (Ascii.is_space c).
Qed.

Lemma foldM_app {A S} (f : S -> A -> M S) (l1 l2 : list A) (s : S) (w : World) :
  foldM f s (l1 ++ l2) w
  = match foldM f s l1 w with
    | Done s' w' => foldM f s' l2 w'
    | Thrown msg w' => Thrown msg w'
    end.
Proof.
  revert s w. induction l1 as [|x l1 IH]; intros s w; simpl; [reflexivity|].
  rewrite !bind_run. destruct (f s x w); [apply IH | reflexivity].
Qed.

Lemma mapM_app_thrown {A B} (f : A -> M B) (l1 l2 : list A) (x : A)
  (ys : list B) (msg : string) (w w1 w2 : World) :
  mapM f l1 w = Done ys w1 ->
  f x w1 = Thrown msg w2 ->
  mapM f (l1 ++ x :: l2) w = Thrown msg w2.
Proof.
  revert ys w. induction l1 as [|a l1 IH]; intros ys w Hl Hx; simpl in *.
  - injection Hl as <- <-. by rewrite bind_run, Hx.
  - rewrite bind_run in *. destruct (f a w) as [b wb|]; [|discriminate].
    rewrite bind_run in *.
    destruct (mapM f l1 wb) as [zs wz|] eqn:E; [|discriminate].
    injection Hl as <- <-.
    by rewrite (IH zs wb E Hx).
Qed.

Lemma bind_throws_l {A B} (m : M A) (k : A -> M B) :
  alwaysThrows m -> alwaysThrows (m ≫= k).
Proof.
  intros Hm w. destruct (Hm w) as (msg & w' & E).
  exists msg, w'. by rewrite bind_run, E.
Qed.

Lemma bind_throws_r {A B} (m : M A) (k : A -> M B) :
  (forall a, alwaysThrows (k a)) -> alwaysThrows (m ≫= k).
Proof.
  intros Hk w. rewrite bind_run. destruct (m w) as [a w'|msg w']; [apply Hk|eauto].
Qed.

Lemma mapM_throws {A B} (f : A -> M B) (l : list A) (x : A) :
  In x l -> alwaysThrows (f x) -> alwaysThrows (mapM f l).
Proof.
  intros Hin Hx. induction l as [|a l IH]; [destruct Hin|].
  destruct Hin as [->|Hin]; simpl.
  - by apply bind_throws_l.
  - apply bind_throws_r. intros b. apply bind_throws_l. by apply IH.
Qed.

Lemma foldM_throws {A S} (f : S -> A -> M S) (l : list A) (x : A) :
  In x l -> (forall s, alwaysThrows (f s x)) ->
  forall s, alwaysThrows (foldM f s l).
Proof.
  intros Hin Hx. induction l as [|a l IH]; [destruct Hin|]; intros s.
  destruct Hin as [->|Hin]; simpl.
  - apply bind_throws_l, Hx.
  - apply bind_throws_r. intros s'. by apply IH.
Qed.

(** ** Property Emitter *)

Section EmitterFacts.
Context `{Host}.
Variable project : Project.

Lemma accumulate_run (t : string) (w : World) :
  accumulate t w = Done tt (withGlobal w (globalContent w +:+ t)).
Proof.
  unfold accumulate. destruct t; simpl.
  - unfold mret, M_ret. by rewrite append_nil_r, withGlobal_same.
  - reflexivity.
Qed.

Lemma emitProperty_run (currentFile : SourceFile) (p : PropertyDeclaration) (w : World) :
  emitProperty project currentFile p w
  = match resolveProperty project currentFile p with
    | Ok t => Done (fieldLine p) (withGlobal w (globalContent w +:+ t))
    | Err msg => Thrown msg w
    end.
Proof.
  unfold emitProperty, resolveProperty.
  destruct (getRefType p) as [[|]|]; rewrite !bind_run.
  - destruct (searchForEnumInFiles _ _ _) as [t|msg]; simpl; [|reflexivity].
    by rewrite accumulate_run.
  - simpl. rewrite !bind_run.
    destruct (searchForTypeAliasInFiles _ _ _) as [t|msg]; simpl; [|reflexivity].
    by rewrite accumulate_run.
  - simpl. by rewrite append_nil_r, withGlobal_same.
Qed.

Lemma mapM_emit_run (currentFile : SourceFile) (ps : list PropertyDeclaration)
  (w : World) :
  mapM (emitProperty project currentFile) ps w
  = let '(t, e) := resolveAll project currentFile ps in
    match e with
    | None => Done (map fieldLine ps) (withGlobal w (globalContent w +:+ t))
    | Some msg => Thrown msg (withGlobal w (globalContent w +:+ t))
    end.
Proof.
  revert w. induction ps as [|p ps IH]; intros w; simpl.
  - unfold mret, M_ret. by rewrite append_nil_r, withGlobal_same.
  - rewrite bind_run, emitProperty_run.
    destruct (resolveProperty project currentFile p) as [t|msg].
    + rewrite bind_run, IH.
      destruct (resolveAll project currentFile ps) as [ts [msg|]]; simpl;
        by rewrite append_assoc.
    + by rewrite append_nil_r, withGlobal_same.
Qed.

Lemma transformClass_run (currentFile : SourceFile) (content : string)
  (c : ClassDeclaration) (w : World) :
  transformClass project currentFile content c w
  = let '(t, e) := resolveAll project currentFile (c_properties c) in
    match e with
    | None =>
        let decl := classContent c (map fieldLine (c_properties c)) in
        Done (content +:+ decl)
          (withClassType (withGlobal w (globalContent w +:+ t))
             (JS.show_undefined (c_name c)) decl)
    | Some msg => Thrown msg (withGlobal w (globalContent w +:+ t))
    end.
Proof.
  unfold transformClass, getPropertiesInTextFormat.
  rewrite bind_run, mapM_emit_run.
  destruct (resolveAll project currentFile (c_properties c)) as [t [msg|]];
    [reflexivity|].
  unfold classContent.
  destruct (collectExtendArgs c); reflexivity.
Qed.

End EmitterFacts.

(** The emitter returns for a class exactly when the locator answers for
    each of its properties; a class without reference-typed properties is
    always emitted. *)
Lemma getPropertiesInTextFormat_returns `{Host} (project : Project)
  (currentFile : SourceFile) (c : ClassDeclaration) (w : World) :
  Forall (fun p => exists t, resolveProperty project currentFile p = Ok t)
    (c_properties c) ->
  exists w', getPropertiesInTextFormat project currentFile c w
             = Done (map fieldLine (c_properties c)) w'.
Proof.
  intros Hall. unfold getPropertiesInTextFormat. rewrite mapM_emit_run.
  assert (Hok : exists t, resolveAll project currentFile (c_properties c) = (t, None)).
  { induction Hall as [|p ps [t Hp] _ [ts IH]]; simpl; [eauto|].
    rewrite Hp, IH. eauto. }
  destruct Hok as [t ->]. eauto.
Qed.

(** C4.  When the Property Emitter returns for a class, it returns one
    field line per property, in declaration order; the line of a property
    holds its documentation texts, its name, a [?] exactly when the property
    has the question token, and its type text, each copied unchanged.  For
    a class with at least one property the declaration the Class
    Transformer emits is the class comment, [export type Name = ], the
    intersected base terms and [& ] when the class extends, and then the
    structural block: an opening brace, these lines in this order separated
    by a semicolon and a line break, and the closing [};]. *)
Theorem field_lines_follow_properties `{Host} (project : Project)
  (currentFile : SourceFile) (content : string) (c : ClassDeclaration)
  (w w' : World) (lines : list string) :
  getPropertiesInTextFormat project currentFile c w = Done lines w' ->
  let block := " {" +:+ JS.nl +:+ JS.spaces 15
               +:+ JS.join (";" +:+ JS.nl) lines +:+ JS.nl
               +:+ JS.spaces 11 +:+ "};" in
  let opening := JS.nl +:+ JS.spaces 7 +:+ JS.join EmptyString (c_jsDocs c)
                 +:+ JS.nl +:+ JS.spaces 7 +:+ "export type "
                 +:+ JS.show_undefined (c_name c) +:+ " = " in
  let decl :=
    match collectExtendArgs c with
    | [] => opening +:+ block +:+ ";"
    | t :: ts =>
        opening +:+ JS.join "& " (map getExtendedType (t :: ts)) +:+ JS.nl
        +:+ JS.spaces 7 +:+ "& " +:+ block +:+ ";"
    end in
  length lines = length (c_properties c)
  /\ (forall (i : nat) (p : PropertyDeclaration),
        c_properties c !! i = Some p ->
        lines !! i
        = Some (JS.nl +:+ JS.spaces 15 +:+ JS.join EmptyString (p_jsDocs p) +:+ JS.nl
                +:+ JS.spaces 17 +:+ p_name p
                +:+ (if p_hasQuestionToken p then "?" else EmptyString)
                +:+ ": " +:+ JS.show_undefined (option_map tn_text (p_typeNode p))
                +:+ JS.nl +:+ JS.spaces 17))
  /\ (c_properties c <> [] ->
      transformClass project currentFile content c w
      = Done (content +:+ decl)
          {| globalContent := globalContent w';
             classTypeMaps :=
               assignKey (classTypeMaps w') (JS.show_undefined (c_name c)) decl;
             disk := disk w' |}).
Proof.
  intros Hrun block opening decl.
  assert (Hlines : lines = map fieldLine (c_properties c)).
  { unfold getPropertiesInTextFormat in Hrun. rewrite mapM_emit_run in Hrun.
    destruct (resolveAll project currentFile (c_properties c)) as [t [msg|]];
      congruence. }
  repeat split.
  - subst lines. apply length_map.
  - intros i p Hp. subst lines. rewrite list_lookup_fmap, Hp. reflexivity.
  - intros Hne.
    assert (Hsome : exists l ls, lines = l :: ls).
    { subst lines. destruct (c_properties c); [congruence|]. simpl. eauto. }
    destruct Hsome as (l & ls & Hcons).
    unfold transformClass. rewrite bind_run, Hrun.
    unfold decl, block, opening. clear decl block opening.
    destruct (collectExtendArgs c) as [|t ts].
    + rewrite bind_run. unfold getNormalClassContent,
        getTypePropertiesOrReturnAnyRecord. rewrite Hcons.
      simpl. by rewrite !append_assoc.
    + rewrite bind_run. unfold getExtendedClassContent,
        getTypePropertiesOrReturnAnyRecord. rewrite Hcons.
      simpl. by rewrite !append_assoc.
Qed.

Lemma field_lines_follow_properties_witness :
  exists w'',
    transformClass (H := Samples.host) [] Samples.fooFile EmptyString Samples.Plain
      (freshWorld ∅)
    = Done (JS.nl +:+ JS.spaces 7 +:+ JS.nl +:+ JS.spaces 7
            +:+ "export type Plain =  {" +:+ JS.nl +:+ JS.spaces 15
            +:+ JS.nl +:+ JS.spaces 15 +:+ "/** id */" +:+ JS.nl +:+ JS.spaces 17
            +:+ "id: string" +:+ JS.nl +:+ JS.spaces 17 +:+ ";" +:+ JS.nl
            +:+ JS.nl +:+ JS.spaces 15 +:+ JS.nl +:+ JS.spaces 17
            +:+ "note?: string" +:+ JS.nl +:+ JS.spaces 17 +:+ JS.nl
            +:+ JS.spaces 11 +:+ "};;") w''.
Proof.
  edestruct (field_lines_follow_properties (H := Samples.host) []
               Samples.fooFile EmptyString Samples.Plain (freshWorld ∅))
    as (_ & _ & Hemit).
  - reflexivity.
  - eexists. rewrite Hemit by discriminate. reflexivity.
Defined.

(** ** Class Transformer *)

(** C5.  A class without properties whose heritage yields no term is
    emitted as [export type Name = Record<string, any>;] under its
    documentation text: the permissive record, no structural block. *)
Theorem empty_class_is_any_record `{Host} (project : Project)
  (currentFile : SourceFile) (content : string) (c : ClassDeclaration) (w : World) :
  c_properties c = [] ->
  collectExtendArgs c = [] ->
  let className := JS.show_undefined (c_name c) in
  let decl := JS.nl +:+ JS.spaces 7 +:+ JS.join EmptyString (c_jsDocs c) +:+ JS.nl
              +:+ JS.spaces 7 +:+ "export type " +:+ className
              +:+ " = Record<string, any>;" in
  transformClass project currentFile content c w
  = Done (content +:+ decl) (withClassType w className decl)
  /\ getTypePropertiesOrReturnAnyRecord [] false = "Record<string, any>".
Proof.
  intros Hprops Hext className decl. split; [|reflexivity].
  rewrite transformClass_run, Hprops. simpl.
  unfold classContent. rewrite Hext.
  by rewrite append_nil_r, withGlobal_same.
Qed.

Lemma empty_class_is_any_record_witness :
  transformClass (H := Samples.host) [] Samples.fooFile EmptyString Samples.Empty
    (freshWorld ∅)
  = Done (JS.nl +:+ JS.spaces 7 +:+ JS.nl +:+ JS.spaces 7
          +:+ "export type Empty = Record<string, any>;")
      (withClassType (freshWorld ∅) "Empty"
         (JS.nl +:+ JS.spaces 7 +:+ JS.nl +:+ JS.spaces 7
          +:+ "export type Empty = Record<string, any>;")).
Proof.
  exact (proj1 (empty_class_is_any_record (H := Samples.host) [] Samples.fooFile
                  EmptyString Samples.Empty (freshWorld ∅) eq_refl eq_refl)).
Defined.

(** C6.  A class whose heritage resolves to the two plain terms [A] then
    [B] and which has no properties is emitted as
    [export type Name = A& B], a line break and [;]: the two terms in
    resolution order joined by [&], which is the expression [A & B] up to
    layout, followed by neither a structural block nor the permissive
    record. *)
Theorem two_plain_bases_intersected `{Host} (project : Project)
  (currentFile : SourceFile) (content : string) (c : ClassDeclaration) (w : World)
  (A B : string) :
  collectExtendArgs c = [plainTerm A; plainTerm B] ->
  c_properties c = [] ->
  let className := JS.show_undefined (c_name c) in
  let decl := JS.nl +:+ JS.spaces 7 +:+ JS.join EmptyString (c_jsDocs c) +:+ JS.nl
              +:+ JS.spaces 7 +:+ "export type " +:+ className +:+ " = "
              +:+ (A +:+ "& " +:+ B) +:+ JS.nl +:+ JS.spaces 7 +:+ ";" in
  transformClass project currentFile content c w
  = Done (content +:+ decl) (withClassType w className decl)
  /\ unspaced (A +:+ "& " +:+ B) = unspaced (A +:+ " & " +:+ B)
  /\ getTypePropertiesOrReturnAnyRecord [] true = EmptyString
  /\ (forall properties : list string,
        classContent c properties
        = JS.nl +:+ JS.spaces 7 +:+ JS.join EmptyString (c_jsDocs c) +:+ JS.nl
          +:+ JS.spaces 7 +:+ "export type " +:+ className +:+ " = "
          +:+ (A +:+ "& " +:+ B) +:+ JS.nl +:+ JS.spaces 7
          +:+ getTypePropertiesOrReturnAnyRecord properties true +:+ ";").
Proof.
  intros Hext Hprops className decl. repeat split.
  - rewrite transformClass_run, Hprops. simpl.
    unfold classContent. rewrite Hext.
    by rewrite append_nil_r, withGlobal_same.
  - by rewrite !unspaced_app.
  - intros properties. unfold classContent. rewrite Hext. reflexivity.
Qed.

Lemma two_plain_bases_intersected_witness :
  transformClass (H := Samples.host) [] Samples.fooFile EmptyString
    (classExtending "AB" [leaf Identifier "A"; leaf Identifier "B"] [])
    (freshWorld ∅)
  = Done (JS.nl +:+ JS.spaces 7 +:+ JS.nl +:+ JS.spaces 7
          +:+ "export type AB = A& B" +:+ JS.nl +:+ JS.spaces 7 +:+ ";")
      (withClassType (freshWorld ∅) "AB"
         (JS.nl +:+ JS.spaces 7 +:+ JS.nl +:+ JS.spaces 7
          +:+ "export type AB = A& B" +:+ JS.nl +:+ JS.spaces 7 +:+ ";")).
Proof.
  exact (proj1 (two_plain_bases_intersected (H := Samples.host) [] Samples.fooFile
                  EmptyString
                  (classExtending "AB" [leaf Identifier "A"; leaf Identifier "B"] [])
                  (freshWorld ∅) "A" "B" eq_refl eq_refl)).
Defined.

(** ** Resolution errors *)

Lemma findImportNaming_none (f : SourceFile) (v : string) :
  Forall (fun d => ~ In v (i_namedImports d)) (f_imports f) ->
  findImportNaming f v = None.
Proof.
  unfold findImportNaming. induction 1 as [|d ds Hd _ IH]; simpl; [reflexivity|].
  destruct (existsb (fun ni => String.eqb ni v) (i_namedImports d)) eqn:E; [|exact IH].
  apply existsb_exists in E as (ni & Hin & Heq).
  apply String.eqb_eq in Heq. subst ni. contradiction.
Qed.

Section ErrorFacts.
Context `{Host}.
Variable project : Project.

Lemma resolveProperty_missing (f : SourceFile) (p : PropertyDeclaration) (k : RefType) :
  getRefType p = Some k ->
  lookupDecl k f (propertyValueString p) = None ->
  Forall (fun d => ~ In (propertyValueString p) (i_namedImports d)) (f_imports f) ->
  resolveProperty project f p
  = Err ("Could not find import declaration for " +:+ kindWord k +:+ " "
         +:+ propertyValueString p).
Proof.
  intros Hk Hdecl Himp. unfold resolveProperty. rewrite Hk.
  destruct k; simpl in Hdecl.
  - unfold searchForEnumInFiles, findAndExtractEnumTextFromFile.
    by rewrite Hdecl, (findImportNaming_none _ _ Himp).
  - unfold searchForTypeAliasInFiles, findAndExtractTypeTextFromFile.
    by rewrite Hdecl, (findImportNaming_none _ _ Himp).
Qed.

Lemma emitProperty_throws (f : SourceFile) (p : PropertyDeclaration) (msg : string) :
  resolveProperty project f p = Err msg ->
  forall w, emitProperty project f p w = Thrown msg w.
Proof. intros E w. by rewrite emitProperty_run, E. Qed.

Lemma foldM_transformClass_keeps_disk (f : SourceFile) (cs : list ClassDeclaration)
  (content content' : string) (w w' : World) :
  foldM (transformClass project f) content cs w = Done content' w' ->
  disk w' = disk w.
Proof.
  revert content w. induction cs as [|c cs IH]; intros content w Hrun; simpl in Hrun.
  - by injection Hrun as _ <-.
  - rewrite bind_run, transformClass_run in Hrun.
    destruct (resolveAll project f (c_properties c)) as [t [msg|]]; [discriminate|].
    by rewrite (IH _ _ Hrun).
Qed.

Lemma processFile_thrown (cliOptions : CliOptions) (f : SourceFile)
  (filesToWrite : list (string * string)) (msg : string) (w w' : World) :
  foldM (transformClass project f) (fileHeader (f_baseName f)) (f_classes f) w
  = Thrown msg w' ->
  processFile project cliOptions filesToWrite f w = Thrown msg w'.
Proof. intros E. unfold processFile. by rewrite bind_run, E. Qed.

End ErrorFacts.

(** C7.  Let a property be classified as an enum or type-alias reference
    to a name that the current file neither declares as that kind nor
    imports.  Then the run throws, wherever the property stands.  When the
    files, classes and properties before it have been processed, the error
    thrown is [Could not find import declaration for <kind> <name>]; the
    state at the throw has the disk as the files before left it and the
    class map as the classes before left it, so nothing of this file or of
    a later one is written, and the outcome does not depend on the
    properties, classes and files that follow. *)
Theorem missing_symbol_aborts_run `{Host} (project : Project) (cliOptions : CliOptions)
  (pre post : list SourceFile) (f : SourceFile)
  (cpre cpost : list ClassDeclaration) (c : ClassDeclaration)
  (ppre ppost : list PropertyDeclaration) (p : PropertyDeclaration)
  (k : RefType) (w0 : World) :
  f_classes f = cpre ++ c :: cpost ->
  c_properties c = ppre ++ p :: ppost ->
  getRefType p = Some k ->
  lookupDecl k f (propertyValueString p) = None ->
  Forall (fun d => ~ In (propertyValueString p) (i_namedImports d)) (f_imports f) ->
  (exists msg w', run project cliOptions (pre ++ f :: post) w0 = Thrown msg w')
  /\ (forall (filesToWrite : list (string * string)) (content : string)
             (lines : list string) (w1 w2 w3 : World),
        foldM (processFile project cliOptions) [] pre w0 = Done filesToWrite w1 ->
        foldM (transformClass project f) (fileHeader (f_baseName f)) cpre w1
        = Done content w2 ->
        mapM (emitProperty project f) ppre w2 = Done lines w3 ->
        run project cliOptions (pre ++ f :: post) w0
        = Thrown ("Could not find import declaration for " +:+ kindWord k +:+ " "
                  +:+ propertyValueString p) w3
        /\ disk w3 = disk w1
        /\ classTypeMaps w3 = classTypeMaps w2).
Proof.
  intros Hcs Hps Hk Hdecl Himp.
  pose proof (resolveProperty_missing project f p k Hk Hdecl Himp) as Hres.
  pose proof (emitProperty_throws project f p _ Hres) as Hthrow.
  split.
  - unfold run. apply foldM_throws with (x := f).
    { apply in_or_app. right. by left. }
    intros ftw. unfold processFile. apply bind_throws_l.
    rewrite Hcs. apply foldM_throws with (x := c).
    { apply in_or_app. right. by left. }
    intros content. unfold transformClass, getPropertiesInTextFormat.
    apply bind_throws_l. rewrite Hps. apply mapM_throws with (x := p).
    { apply in_or_app. right. by left. }
    intros w. eauto.
  - intros ftw content lines w1 w2 w3 Hpre Hcpre Hppre.
    assert (Hclass : transformClass project f content c w2
                     = Thrown ("Could not find import declaration for "
                               +:+ kindWord k +:+ " " +:+ propertyValueString p) w3).
    { unfold transformClass, getPropertiesInTextFormat.
      rewrite bind_run, Hps.
      by rewrite (mapM_app_thrown _ _ _ _ _ _ _ _ _ Hppre (Hthrow w3)). }
    repeat split.
    + unfold run. rewrite foldM_app, Hpre. simpl. rewrite bind_run.
      erewrite processFile_thrown; [reflexivity|].
      rewrite Hcs, foldM_app, Hcpre. simpl. by rewrite bind_run, Hclass.
    + rewrite mapM_emit_run in Hppre.
      destruct (resolveAll project f ppre) as [t [msg|]]; [discriminate|].
      injection Hppre as _ <-. simpl.
      exact (foldM_transformClass_keeps_disk project f _ _ _ _ _ Hcpre).
    + rewrite mapM_emit_run in Hppre.
      destruct (resolveAll project f ppre) as [t [msg|]]; [discriminate|].
      by injection Hppre as _ <-.
Qed.

Lemma missing_symbol_aborts_run_witness :
  exists w,
    run (H := Samples.host) [Samples.fooFile; Samples.bazFile] Samples.cli
      [Samples.fooFile; Samples.bazFile; Samples.twoFile] (freshWorld ∅)
    = Thrown "Could not find import declaration for typeAlias Meta" w
    /\ disk w !! "/w/sdk/defs.d.ts"
       = match run (H := Samples.host) [Samples.fooFile; Samples.bazFile] Samples.cli
                 [Samples.fooFile] (freshWorld ∅) with
         | Done _ w1 => disk w1 !! "/w/sdk/defs.d.ts"
         | Thrown _ _ => None
         end.
Proof.
  destruct (missing_symbol_aborts_run (H := Samples.host)
              [Samples.fooFile; Samples.bazFile] Samples.cli
              [Samples.fooFile] [Samples.twoFile] Samples.bazFile
              [] [] Samples.Baz [] [] (Samples.refProp "meta" "Meta" false)
              RefTypeAlias (freshWorld ∅)
              eq_refl eq_refl eq_refl eq_refl
              (List.Forall_nil _)) as [_ Hreach].
  destruct (run (H := Samples.host) [Samples.fooFile; Samples.bazFile] Samples.cli
              [Samples.fooFile] (freshWorld ∅)) as [ftw w1|msg w1] eqn:Hpre.
  - destruct (Hreach ftw _ [] w1 w1 w1 Hpre eq_refl eq_refl) as (Hrun & Hdisk & _).
    exists w1. split; [exact Hrun | reflexivity].
  - exfalso. vm_compute in Hpre. discriminate.
Defined.

(** ** Global Accumulator *)

Section AccumulatorFacts.
Context `{Host}.
Variable project : Project.

Lemma resolveAll_app (f : SourceFile) (l1 l2 : list PropertyDeclaration) :
  resolveAll project f (l1 ++ l2)
  = match resolveAll project f l1 with
    | (t1, None) => let '(t2, e) := resolveAll project f l2 in (t1 +:+ t2, e)
    | (t1, Some msg) => (t1, Some msg)
    end.
Proof.
  induction l1 as [|p l1 IH]; simpl.
  - by destruct (resolveAll project f l2).
  - destruct (resolveProperty project f p) as [t|msg]; [|reflexivity].
    rewrite IH. destruct (resolveAll project f l1) as [t1 [msg|]]; [reflexivity|].
    destruct (resolveAll project f l2) as [t2 e]. by rewrite append_assoc.
Qed.

(** A property resolved in the middle of a list leaves its text in the
    middle of the texts of the list. *)
Lemma resolveAll_middle (f : SourceFile) (a rest : list PropertyDeclaration)
  (p : PropertyDeclaration) (t r : string) :
  resolveAll project f (a ++ p :: rest) = (t, None) ->
  resolveProperty project f p = Ok r ->
  exists ta trest,
    t = ta +:+ r +:+ trest /\ resolveAll project f rest = (trest, None).
Proof.
  intros Hall Hp. rewrite resolveAll_app in Hall. simpl in Hall. rewrite Hp in Hall.
  destruct (resolveAll project f a) as [ta [msg|]]; [discriminate|].
  destruct (resolveAll project f rest) as [trest e].
  injection Hall as <- ->. eauto.
Qed.

Lemma resolveProperty_declared (f : SourceFile) (p : PropertyDeclaration)
  (k : RefType) (text : string) :
  getRefType p = Some k ->
  extractDecl k f (propertyValueString p) = Some text ->
  resolveProperty project f p
  = Ok (exportPrefix (Some text) +:+ " " +:+ text +:+ JS.nl +:+ JS.nl).
Proof.
  intros Hk Hdecl. unfold resolveProperty. rewrite Hk.
  destruct k; simpl in Hdecl.
  - unfold searchForEnumInFiles. by rewrite Hdecl.
  - unfold searchForTypeAliasInFiles. by rewrite Hdecl.
Qed.

Lemma foldM_transformClass_global (f : SourceFile) (cs : list ClassDeclaration)
  (content content' : string) (w w' : World) :
  foldM (transformClass project f) content cs w = Done content' w' ->
  exists t, resolveAll project f (flat_map c_properties cs) = (t, None)
            /\ globalContent w' = globalContent w +:+ t.
Proof.
  revert content w. induction cs as [|c cs IH]; intros content w Hrun; simpl in Hrun.
  - injection Hrun as _ <-. exists EmptyString. by rewrite append_nil_r.
  - rewrite bind_run, transformClass_run in Hrun. simpl.
    rewrite resolveAll_app.
    destruct (resolveAll project f (c_properties c)) as [t [msg|]]; [discriminate|].
    destruct (IH _ _ Hrun) as (ts & Hts & Hg).
    rewrite Hts. exists (t +:+ ts). split; [reflexivity|].
    rewrite Hg. simpl. by rewrite append_assoc.
Qed.

Lemma processFile_global (cliOptions : CliOptions) (f : SourceFile)
  (filesToWrite r : list (string * string)) (w w' : World) :
  processFile project cliOptions filesToWrite f w = Done r w' ->
  exists t, resolveAll project f (allProperties f) = (t, None)
            /\ globalContent w' = globalContent w +:+ t.
Proof.
  unfold processFile. rewrite bind_run.
  destruct (foldM _ _ _ w) as [content w1|msg w1] eqn:Hcs; [|discriminate].
  destruct (foldM_transformClass_global _ _ _ _ _ _ Hcs) as (t & Ht & Hg).
  rewrite !bind_run. simpl. rewrite !bind_run.
  destruct (format _) as [formatted|msg]; simpl; [|discriminate].
  intros Hrun. injection Hrun as _ <-. simpl. eauto.
Qed.

Lemma foldM_processFile_global (cliOptions : CliOptions) (files : list SourceFile)
  (filesToWrite r : list (string * string)) (w w' : World) :
  foldM (processFile project cliOptions) filesToWrite files w = Done r w' ->
  exists t, globalContent w' = globalContent w +:+ t.
Proof.
  revert filesToWrite w.
  induction files as [|f files IH]; intros ftw w Hrun; simpl in Hrun.
  - injection Hrun as _ <-. exists EmptyString. by rewrite append_nil_r.
  - rewrite bind_run in Hrun.
    destruct (processFile _ _ _ _ w) as [ftw1 w1|msg w1] eqn:Hf; [|discriminate].
    destruct (processFile_global _ _ _ _ _ _ Hf) as (t & _ & Hg).
    destruct (IH _ _ Hrun) as (ts & Hgs).
    exists (t +:+ ts). by rewrite Hgs, Hg, append_assoc.
Qed.

End AccumulatorFacts.

(** C10.  In a run that completes, let two properties at distinct places
    of one file be classified as references of the same kind to the same
    name, declared in that file with text [text].  Then the accumulator
    holds the resolved declaration [export text] twice, one after the
    other in the order of the properties, whatever it held before: each
    resolution is appended, none is compared with what is already there. *)
Theorem repeated_reference_accumulates_twice `{Host} (project : Project)
  (cliOptions : CliOptions) (pre post : list SourceFile) (f : SourceFile)
  (a b c : list PropertyDeclaration) (p1 p2 : PropertyDeclaration)
  (k : RefType) (text : string) (r : list (string * string)) (w0 w' : World) :
  allProperties f = a ++ p1 :: b ++ p2 :: c ->
  getRefType p1 = Some k ->
  getRefType p2 = Some k ->
  propertyValueString p2 = propertyValueString p1 ->
  extractDecl k f (propertyValueString p1) = Some text ->
  run project cliOptions (pre ++ f :: post) w0 = Done r w' ->
  let resolved := exportPrefix (Some text) +:+ " " +:+ text +:+ JS.nl +:+ JS.nl in
  (exists x y z, globalContent w' = x +:+ resolved +:+ y +:+ resolved +:+ z)
  /\ (exists x y z, globalContent w' = x +:+ text +:+ y +:+ text +:+ z).
Proof.
  intros Hprops Hk1 Hk2 Hsame Hdecl Hrun resolved.
  assert (Htwice : exists x y z,
             globalContent w' = x +:+ resolved +:+ y +:+ resolved +:+ z).
  { unfold run in Hrun. rewrite foldM_app in Hrun.
    destruct (foldM _ [] pre w0) as [ftw1 w1|msg w1] eqn:Hpre; [|discriminate].
    simpl in Hrun. rewrite bind_run in Hrun.
    destruct (processFile _ _ _ _ w1) as [ftw2 w2|msg w2] eqn:Hf; [|discriminate].
    destruct (foldM_processFile_global _ _ _ _ _ _ _ Hpre) as (tpre & Hgpre).
    destruct (processFile_global _ _ _ _ _ _ _ Hf) as (tf & Htf & Hgf).
    destruct (foldM_processFile_global _ _ _ _ _ _ _ Hrun) as (tpost & Hgpost).
    rewrite Hprops in Htf.
    pose proof (resolveProperty_declared project f p1 k text Hk1 Hdecl) as Hr1.
    rewrite <- Hsame in Hdecl.
    pose proof (resolveProperty_declared project f p2 k text Hk2 Hdecl) as Hr2.
    destruct (resolveAll_middle _ _ _ _ _ _ _ Htf Hr1) as (ta & t1 & -> & Hrest).
    destruct (resolveAll_middle _ _ _ _ _ _ _ Hrest Hr2) as (tb & tc & -> & _).
    exists (globalContent w0 +:+ tpre +:+ ta), tb, (tc +:+ tpost).
    rewrite Hgpost, Hgf, Hgpre. fold resolved.
    by rewrite !append_assoc. }
  split; [exact Htwice|].
  destruct Htwice as (x & y & z & ->).
  exists (x +:+ exportPrefix (Some text) +:+ " "),
         (JS.nl +:+ JS.nl +:+ y +:+ exportPrefix (Some text) +:+ " "),
         (JS.nl +:+ JS.nl +:+ z).
  unfold resolved. by rewrite !append_assoc.
Qed.

Lemma repeated_reference_accumulates_twice_witness :
  exists (r : list (string * string)) (w' : World),
    run (H := Samples.host) [Samples.twoFile] Samples.cli [Samples.twoFile]
      (freshWorld ∅) = Done r w'
    /\ exists x y z,
         globalContent w'
         = x +:+ "enum Status { A }" +:+ y +:+ "enum Status { A }" +:+ z.
Proof.
  destruct (run (H := Samples.host) [Samples.twoFile] Samples.cli [Samples.twoFile]
              (freshWorld ∅)) as [r w'|msg w'] eqn:Hrun.
  - exists r, w'. split; [reflexivity|].
    exact (proj2 (repeated_reference_accumulates_twice (H := Samples.host)
                    [Samples.twoFile] Samples.cli [] [] Samples.twoFile
                    [] [] [] (Samples.refProp "a" "Status" true)
                    (Samples.refProp "b" "Status" true) RefEnum
                    "enum Status { A }" r (freshWorld ∅) w'
                    eq_refl eq_refl eq_refl eq_refl eq_refl Hrun)).
  - exfalso. vm_compute in Hrun. discriminate.
Defined.

(** ** Output Assembler *)

(** C8.  One file holding one class with one property, classified as a
    reference to an enum that the same file declares with text [text].
    The run leaves exactly one resolved declaration in the accumulator and
    hands the formatter a text made of the namespace opening, the export
    prefix, [text], the file header, the declaration of the class and the
    namespace closing, in this order: the enum text is placed once, ahead
    of the class declaration. *)
Theorem same_file_enum_precedes_class `{Host} (project : Project)
  (cliOptions : CliOptions) (f : SourceFile) (c : ClassDeclaration)
  (p : PropertyDeclaration) (text formatted : string) (d : gmap string string) :
  f_classes f = [c] ->
  c_properties c = [p] ->
  getRefType p = Some RefEnum ->
  findAndExtractEnumTextFromFile f (propertyValueString p) = Some text ->
  let resolved := exportPrefix (Some text) +:+ " " +:+ text +:+ JS.nl +:+ JS.nl in
  let decl := classContent c [fieldLine p] in
  let content := fileHeader (f_baseName f) +:+ decl in
  let raw := resolved +:+ " " +:+ content +:+ JS.nl +:+ JS.nl in
  let final := getFinalContentTemplate (namespace cliOptions) raw in
  format final = Ok formatted ->
  run project cliOptions [f] (freshWorld d)
  = Done [(f_baseName f, content)]
      {| globalContent := resolved;
         classTypeMaps := assignKey ∅ (JS.show_undefined (c_name c)) decl;
         disk := <[outPath cliOptions := formatted]>
                   (<[tempPath cliOptions := raw]> d) |}
  /\ final
     = (JS.nl +:+ JS.spaces 11 +:+ "namespace " +:+ namespace cliOptions +:+ " {"
        +:+ JS.nl +:+ JS.spaces 15 +:+ exportPrefix (Some text) +:+ " ")
       +:+ text
       +:+ (JS.nl +:+ JS.nl +:+ " " +:+ fileHeader (f_baseName f))
       +:+ decl
       +:+ (JS.nl +:+ JS.nl +:+ JS.nl +:+ JS.spaces 11 +:+ "}" +:+ JS.nl +:+ JS.spaces 7).
Proof.
  intros Hcs Hps Hk Hdecl resolved decl content raw final Hfmt.
  split.
  - unfold run. simpl. rewrite bind_run. unfold processFile.
    rewrite bind_run, Hcs. simpl.
    rewrite bind_run, transformClass_run, Hps. simpl.
    rewrite (resolveProperty_declared project f p RefEnum text Hk Hdecl).
    simpl. rewrite append_nil_r.
    unfold mret, M_ret. rewrite !bind_run. simpl. rewrite !bind_run.
    match goal with |- context [format ?x] => change x with final end.
    rewrite Hfmt. reflexivity.
  - unfold final, getFinalContentTemplate, raw, resolved, content.
    by rewrite !append_assoc.
Qed.

Lemma same_file_enum_precedes_class_witness :
  disk (worldOf (run (H := Samples.host) [Samples.fooFile] Samples.cli
                   [Samples.fooFile] (freshWorld ∅)))
    !! outPath (H := Samples.host) Samples.cli = Some Samples.fooFinal
  /\ occurrences "enum Status { A }" Samples.fooFinal = 1
  /\ String.index 0 "enum Status { A }" Samples.fooFinal = Some 50
  /\ String.index 0 "export type Foo" Samples.fooFinal = Some 119.
Proof.
  destruct (same_file_enum_precedes_class (H := Samples.host) [Samples.fooFile]
              Samples.cli Samples.fooFile Samples.Foo
              (Samples.refProp "status" "Status" true) "enum Status { A }"
              Samples.fooFinal ∅ eq_refl eq_refl eq_refl eq_refl eq_refl)
    as [Hrun _].
  rewrite Hrun. repeat split; vm_compute; reflexivity.
Defined.

(** ** Reruns *)

Lemma applyWrites_app (ws1 ws2 : list (string * string)) (d : gmap string string) :
  applyWrites (ws1 ++ ws2) d = applyWrites ws2 (applyWrites ws1 d).
Proof. apply fold_left_app. Qed.

(** Writes land on top of whatever the disk held. *)
Lemma applyWrites_union (ws : list (string * string)) (d : gmap string string) :
  applyWrites ws d = applyWrites ws ∅ ∪ d.
Proof.
  revert d. induction ws as [|[k v] ws IH]; intros d; simpl.
  - by rewrite (left_id_L ∅ (∪)).
  - rewrite IH, (IH (<[k:=v]> ∅)).
    rewrite insert_empty, insert_union_singleton_l.
    by rewrite (assoc_L (∪)).
Qed.

Lemma applyWrites_twice (ws : list (string * string)) (d : gmap string string) :
  applyWrites ws (applyWrites ws d) = applyWrites ws d.
Proof.
  rewrite (applyWrites_union ws (applyWrites ws d)), (applyWrites_union ws d).
  by rewrite (assoc_L (∪)), (idemp_L (∪)).
Qed.

Lemma oblivious_ret {A} (a : A) : diskOblivious (mret a).
Proof. intros g c. by exists [], (Ok a), g, c. Qed.

Lemma oblivious_throw {A} (msg : string) : diskOblivious (@throw A msg).
Proof. intros g c. by exists [], (Err msg), g, c. Qed.

Lemma oblivious_lift {A} (r : result A) : diskOblivious (lift r).
Proof. destruct r; [apply oblivious_ret | apply oblivious_throw]. Qed.

Lemma oblivious_appendGlobal (t : string) : diskOblivious (appendGlobal t).
Proof. intros g c. by exists [], (Ok tt), (g +:+ t), c. Qed.

Lemma oblivious_setClassType (n t : string) : diskOblivious (setClassType n t).
Proof. intros g c. by exists [], (Ok tt), g, (assignKey c n t). Qed.

Lemma oblivious_writeFile (n t : string) : diskOblivious (writeFile n t).
Proof. intros g c. by exists [(n, t)], (Ok tt), g, c. Qed.

Lemma oblivious_bind {A B} (m : M A) (k : A -> M B) :
  diskOblivious m -> (forall a, diskOblivious (k a)) -> diskOblivious (m ≫= k).
Proof.
  intros Hm Hk g c.
  destruct (Hm g c) as (ws1 & [a|msg] & g1 & c1 & E1).
  - destruct (Hk a g1 c1) as (ws2 & o & g2 & c2 & E2).
    exists (ws1 ++ ws2), o, g2, c2. intros d.
    by rewrite bind_run, E1, applyWrites_app; simpl.
  - exists ws1, (Err msg), g1, c1. intros d. by rewrite bind_run, E1.
Qed.

(** [readGlobal] followed by a continuation: the value read is one of the
    module variables, not the disk. *)
Lemma oblivious_readGlobal {B} (k : string -> M B) :
  (forall g, diskOblivious (k g)) -> diskOblivious (readGlobal ≫= k).
Proof.
  intros Hk g c. destruct (Hk g g c) as (ws & o & g' & c' & E).
  exists ws, o, g', c'. intros d. rewrite bind_run. apply E.
Qed.

Lemma oblivious_mapM {A B} (f : A -> M B) (l : list A) :
  (forall x, diskOblivious (f x)) -> diskOblivious (mapM f l).
Proof.
  intros Hf. induction l as [|x l IH]; simpl; [apply oblivious_ret|].
  apply oblivious_bind; [apply Hf|]. intros y.
  apply oblivious_bind; [apply IH|]. intros ys. apply oblivious_ret.
Qed.

Lemma oblivious_foldM {A S} (f : S -> A -> M S) (l : list A) :
  (forall s x, diskOblivious (f s x)) -> forall s, diskOblivious (foldM f s l).
Proof.
  intros Hf. induction l as [|x l IH]; intros s; simpl; [apply oblivious_ret|].
  apply oblivious_bind; [apply Hf | apply IH].
Qed.

Section RerunFacts.
Context `{Host}.
Variable project : Project.

Lemma oblivious_accumulate (t : string) : diskOblivious (accumulate t).
Proof.
  unfold accumulate. destruct (JS.truthy t);
    [apply oblivious_appendGlobal | apply oblivious_ret].
Qed.

Lemma oblivious_emitProperty (f : SourceFile) (p : PropertyDeclaration) :
  diskOblivious (emitProperty project f p).
Proof.
  unfold emitProperty.
  apply oblivious_bind.
  { destruct (getRefType p) as [[|]|]; try apply oblivious_ret.
    apply oblivious_bind; [apply oblivious_lift | intros; apply oblivious_accumulate]. }
  intros _. apply oblivious_bind; [|intros; apply oblivious_ret].
  destruct (getRefType p) as [[|]|]; try apply oblivious_ret.
  apply oblivious_bind; [apply oblivious_lift | intros; apply oblivious_accumulate].
Qed.

Lemma oblivious_transformClass (f : SourceFile) (content : string)
  (c : ClassDeclaration) :
  diskOblivious (transformClass project f content c).
Proof.
  unfold transformClass, getPropertiesInTextFormat.
  apply oblivious_bind; [apply oblivious_mapM, oblivious_emitProperty|].
  intros lines. destruct (collectExtendArgs c);
    (apply oblivious_bind; [apply oblivious_setClassType | intros; apply oblivious_ret]).
Qed.

Lemma oblivious_processFile (cliOptions : CliOptions)
  (filesToWrite : list (string * string)) (f : SourceFile) :
  diskOblivious (processFile project cliOptions filesToWrite f).
Proof.
  unfold processFile.
  apply oblivious_bind; [apply oblivious_foldM; intros; apply oblivious_transformClass|].
  intros content. apply oblivious_readGlobal. intros g.
  apply oblivious_bind; [apply oblivious_writeFile|]. intros _.
  apply oblivious_bind; [apply oblivious_lift|]. intros formatted.
  apply oblivious_bind; [apply oblivious_writeFile|]. intros _.
  apply oblivious_ret.
Qed.

Lemma oblivious_run (cliOptions : CliOptions) (files : list SourceFile) :
  diskOblivious (run project cliOptions files).
Proof.
  unfold run. apply oblivious_foldM. intros; apply oblivious_processFile.
Qed.

End RerunFacts.

(** C9.  The run never reads the disk: from a fresh process, its outcome
    and the writes it performs are determined by the source files and the
    options.  Hence a second run of a fresh process on the same files and
    options, started on the disk the first run left, ends with the same
    outcome and the same disk; in particular the raw-text artifact
    [types.temp] holds the same text after both runs. *)
Theorem rerun_reproduces_output `{Host} (project : Project) (cliOptions : CliOptions)
  (files : list SourceFile) (d : gmap string string) :
  let first := run project cliOptions files (freshWorld d) in
  let second := run project cliOptions files (freshWorld (disk (worldOf first))) in
  diskOblivious (run project cliOptions files)
  /\ second = first
  /\ disk (worldOf second) !! tempPath cliOptions
     = disk (worldOf first) !! tempPath cliOptions.
Proof.
  intros first second.
  assert (Hsame : second = first).
  { unfold second, first, freshWorld.
    destruct (oblivious_run project cliOptions files EmptyString ∅)
      as (ws & o & g' & c' & E).
    rewrite !E.
    destruct o; simpl; by rewrite applyWrites_twice. }
  split; [apply oblivious_run|]. split; [exact Hsame|]. by rewrite Hsame.
Qed.

(** * Further properties of the code *)

(** ** Option validation *)

(** X1.  [readCliOptions] returns options exactly when a non-empty pattern
    list and non-empty output directory, output file name and namespace were
    all given, and then returns them unchanged; an empty value is refused
    like an absent one, and a missing pattern is reported before anything
    else that is missing. *)
Theorem readCliOptions_accepts_complete_options (o : ParsedOptions) (cli : CliOptions) :
  (readCliOptions o = Ok cli
   <-> (opt_pattern o = Some (pattern cli) /\ pattern cli <> []
        /\ opt_outDir o = Some (outDir cli) /\ outDir cli <> EmptyString
        /\ opt_outFile o = Some (outFile cli) /\ outFile cli <> EmptyString
        /\ opt_namespace o = Some (namespace cli) /\ namespace cli <> EmptyString))
  /\ ((opt_pattern o = None \/ opt_pattern o = Some []) ->
      readCliOptions o = Err "Please provide --pattern for source files").
Proof.
  split; [split|].
  - unfold readCliOptions. intros Hok.
    destruct (opt_pattern o) as [[|p ps]|]; try discriminate.
    destruct (opt_outDir o) as [[|d0 d]|]; try discriminate.
    destruct (opt_outFile o) as [[|f0 f]|]; try discriminate.
    destruct (opt_namespace o) as [[|n0 n]|]; try discriminate.
    injection Hok as <-. simpl. repeat split; discriminate.
  - intros (Hp & Hp' & Hd & Hd' & Hf & Hf' & Hn & Hn').
    unfold readCliOptions. rewrite Hp, Hd, Hf, Hn.
    destruct cli as [pat dir file ns]. simpl in *.
    destruct pat; [congruence|]. destruct dir; [congruence|].
    destruct file; [congruence|]. destruct ns; [congruence|]. reflexivity.
  - unfold readCliOptions. intros [-> | ->]; reflexivity.
Qed.

Lemma readCliOptions_accepts_complete_options_witness :
  readCliOptions MoreSamples.fullOptions = Ok Samples.cli
  /\ readCliOptions {| opt_pattern := Some []; opt_outDir := None;
                       opt_outFile := None; opt_namespace := None |}
     = Err "Please provide --pattern for source files".
Proof.
  destruct (readCliOptions_accepts_complete_options MoreSamples.fullOptions Samples.cli)
    as [[_ Hback] _].
  destruct (readCliOptions_accepts_complete_options
              {| opt_pattern := Some []; opt_outDir := None;
                 opt_outFile := None; opt_namespace := None |} Samples.cli)
    as [_ Hfirst].
  split.
  - apply Hback. repeat split; (reflexivity || discriminate).
  - apply Hfirst. right. reflexivity.
Defined.

(** ** Symbol Locator, continued *)

Lemma truthy_app_r (a b : string) : JS.truthy b = true -> JS.truthy (a +:+ b) = true.
Proof. destruct a; [trivial | reflexivity]. Qed.

Lemma string_of_list_ascii_snoc (l : list ascii) (c : ascii) (s : string) :
  string_of_list_ascii (l ++ [c]) +:+ s = string_of_list_ascii l +:+ String c s.
Proof.
  induction l as [|x l IH]; simpl; [reflexivity|].
  by rewrite !append_cons, IH.
Qed.

(** A text without the separator is one segment. *)
Lemma split_aux_free (sep : ascii) (s : string) (cur : list ascii) :
  String.index 0 (String sep EmptyString) s = None ->
  JS.split_aux sep cur s = [string_of_list_ascii (rev cur) +:+ s].
Proof.
  revert cur. induction s as [|c s IH]; intros cur Hfree.
  - simpl. by rewrite append_nil_r.
  - cbn -[ascii_dec] in Hfree. simpl.
    destruct (ascii_dec sep c) as [Heq|Hne].
    + destruct s; discriminate.
    + destruct (String.index 0 (String sep EmptyString) s) eqn:E; [discriminate|].
      destruct (Ascii.eqb c sep) eqn:Hc.
      * apply Ascii.eqb_eq in Hc. congruence.
      * rewrite (IH (c :: cur) eq_refl). simpl.
        by rewrite string_of_list_ascii_snoc.
Qed.

(** The last segment of a path is what follows its last separator. *)
Lemma pop_split_last (sep : ascii) (a b : string) (cur : list ascii) :
  String.index 0 (String sep EmptyString) b = None ->
  JS.pop (JS.split_aux sep cur (a +:+ String sep b)) = Some b.
Proof.
  intros Hfree. revert cur. induction a as [|c a IH]; intros cur.
  - change (EmptyString +:+ String sep b) with (String sep b). simpl.
    rewrite Ascii.eqb_refl, (split_aux_free sep b [] Hfree). reflexivity.
  - rewrite append_cons. simpl.
    destruct (Ascii.eqb c sep).
    + specialize (IH []). unfold JS.pop in *.
      destruct (JS.split_aux sep [] (a +:+ String sep b)) eqn:E; [discriminate|].
      exact IH.
    + apply IH.
Qed.

(** X2.  A declaration found in the current file is used as it is: the
    imports of the file and the other files of the project play no part,
    and the text returned carries no origin comment. *)
Theorem local_declaration_shadows_imports `{Host} (project project' : Project)
  (currentFile : SourceFile) (imports' : list ImportDeclaration)
  (k : RefType) (name text : string) :
  extractDecl k currentFile name = Some text ->
  let elsewhere :=
    {| f_filePath := f_filePath currentFile;
       f_directoryPath := f_directoryPath currentFile;
       f_baseName := f_baseName currentFile;
       f_classes := f_classes currentFile;
       f_enums := f_enums currentFile;
       f_typeAliases := f_typeAliases currentFile;
       f_imports := imports' |} in
  match k with
  | RefEnum =>
      searchForEnumInFiles project currentFile name
      = Ok (exportPrefix (Some text) +:+ " " +:+ text +:+ JS.nl +:+ JS.nl)
      /\ searchForEnumInFiles project' elsewhere name
         = searchForEnumInFiles project currentFile name
  | RefTypeAlias =>
      searchForTypeAliasInFiles project currentFile name
      = Ok (exportPrefix (Some text) +:+ " " +:+ text +:+ JS.nl +:+ JS.nl)
      /\ searchForTypeAliasInFiles project' elsewhere name
         = searchForTypeAliasInFiles project currentFile name
  end.
Proof.
  intros Hdecl elsewhere. destruct k; simpl in Hdecl.
  - unfold searchForEnumInFiles.
    change (findAndExtractEnumTextFromFile elsewhere name)
      with (findAndExtractEnumTextFromFile currentFile name).
    by rewrite Hdecl.
  - unfold searchForTypeAliasInFiles.
    change (findAndExtractTypeTextFromFile elsewhere name)
      with (findAndExtractTypeTextFromFile currentFile name).
    by rewrite Hdecl.
Qed.

Lemma local_declaration_shadows_imports_witness :
  searchForEnumInFiles (H := Samples.host) [] Samples.fooFile "Status"
  = Ok ("export enum Status { A }" +:+ JS.nl +:+ JS.nl).
Proof.
  exact (proj1 (local_declaration_shadows_imports (H := Samples.host)
                  [] [] Samples.fooFile [] RefEnum "Status" "enum Status { A }"
                  eq_refl)).
Defined.

(** X3.  A declaration absent from the current file and found through the
    first import that names it is returned under a comment holding the last
    segment of the import's module specifier with [.ts] appended, followed
    by the export prefix and the declaration text of the imported file. *)
Theorem import_hop_names_origin `{Host} (project : Project)
  (currentFile specifiedFile : SourceFile) (importedModule : ImportDeclaration)
  (k : RefType) (name text dir base : string) :
  extractDecl k currentFile name = None ->
  findImportNaming currentFile name = Some importedModule ->
  i_moduleSpecifier importedModule = dir +:+ "/" +:+ base ->
  String.index 0 "/" base = None ->
  getSourceFile project
    (path_resolve [f_directoryPath currentFile;
                   i_moduleSpecifier importedModule +:+ ".ts"])
  = Some specifiedFile ->
  extractDecl k specifiedFile name = Some text ->
  match k with
  | RefEnum => searchForEnumInFiles project currentFile name
  | RefTypeAlias => searchForTypeAliasInFiles project currentFile name
  end
  = Ok (JS.nl +:+ JS.spaces (match k with RefEnum => 7 | RefTypeAlias => 9 end)
        +:+ "// " +:+ base +:+ ".ts" +:+ JS.nl
        +:+ JS.spaces (match k with RefEnum => 7 | RefTypeAlias => 9 end)
        +:+ exportPrefix (Some text) +:+ " " +:+ text +:+ JS.nl +:+ JS.nl).
Proof.
  intros Hcur Himp Hspec Hbase Hfile Htarget.
  assert (Hpop : JS.pop (JS.split "/" (i_moduleSpecifier importedModule +:+ ".ts"))
                 = Some (base +:+ ".ts")).
  { rewrite Hspec, !append_assoc.
    change ("/" +:+ base +:+ ".ts") with (String "/" (base +:+ ".ts")).
    apply pop_split_last.
    clear -Hbase. induction base as [|c b IH]; [reflexivity|].
    cbn -[ascii_dec] in Hbase. rewrite append_cons. cbn -[ascii_dec].
    destruct (ascii_dec "/" c); [destruct b; discriminate|].
    destruct (String.index 0 "/" b); [discriminate|].
    by rewrite (IH eq_refl). }
  destruct k; simpl in Hcur, Htarget.
  - unfold searchForEnumInFiles. rewrite Hcur, Himp, Hfile, Htarget, Hpop.
    simpl. by rewrite !append_assoc.
  - unfold searchForTypeAliasInFiles. rewrite Hcur, Himp, Hfile, Htarget, Hpop.
    simpl. by rewrite !append_assoc.
Qed.

Lemma import_hop_names_origin_witness :
  searchForTypeAliasInFiles (H := Samples.host) MoreSamples.cardProject
    MoreSamples.cardFile "Meta"
  = Ok (JS.nl +:+ JS.spaces 9 +:+ "// meta.ts" +:+ JS.nl +:+ JS.spaces 9
        +:+ "export export type Meta = { id: string }" +:+ JS.nl +:+ JS.nl).
Proof.
  exact (import_hop_names_origin (H := Samples.host) MoreSamples.cardProject
           MoreSamples.cardFile MoreSamples.sharedMeta
           {| i_moduleSpecifier := "../shared/meta"; i_namedImports := ["Meta"] |}
           RefTypeAlias "Meta" "export type Meta = { id: string }" "../shared" "meta"
           eq_refl eq_refl eq_refl eq_refl eq_refl eq_refl).
Defined.

(** X4.  Whatever the locator returns is a non-empty text that ends with
    two line breaks, so the emitter's test [if (found)] never fails and
    every lookup that returns is appended to the accumulator. *)
Theorem located_text_is_never_empty `{Host} (project : Project)
  (currentFile : SourceFile) (p : PropertyDeclaration) (k : RefType)
  (found : string) (w : World) :
  getRefType p = Some k ->
  match k with
  | RefEnum => searchForEnumInFiles project currentFile (propertyValueString p)
  | RefTypeAlias => searchForTypeAliasInFiles project currentFile (propertyValueString p)
  end = Ok found ->
  JS.truthy found = true
  /\ (exists body, found = body +:+ JS.nl +:+ JS.nl)
  /\ emitProperty project currentFile p w
     = Done (fieldLine p) (withGlobal w (globalContent w +:+ found)).
Proof.
  intros Hk Hfound.
  assert (Hshape : exists body, found = body +:+ JS.nl +:+ JS.nl).
  { destruct k.
    - unfold searchForEnumInFiles in Hfound.
      destruct (findAndExtractEnumTextFromFile currentFile _).
      + injection Hfound as <-. eexists. by rewrite <- !append_assoc.
      + destruct (findImportNaming _ _); [|discriminate].
        destruct (getSourceFile _ _); [|discriminate].
        injection Hfound as <-. eexists. by rewrite <- !append_assoc.
    - unfold searchForTypeAliasInFiles in Hfound.
      destruct (findAndExtractTypeTextFromFile currentFile _).
      + injection Hfound as <-. eexists. by rewrite <- !append_assoc.
      + destruct (findImportNaming _ _); [|discriminate].
        destruct (getSourceFile _ _); [|discriminate].
        injection Hfound as <-. eexists. by rewrite <- !append_assoc. }
  split; [|split; [exact Hshape|]].
  - destruct Hshape as [body ->]. by apply truthy_app_r.
  - rewrite emitProperty_run. unfold resolveProperty. rewrite Hk.
    destruct k; by rewrite Hfound.
Qed.

Lemma located_text_is_never_empty_witness :
  emitProperty (H := Samples.host) Samples.barProject Samples.barFile
    (Samples.refProp "color" "Color" true) (freshWorld ∅)
  = Done (fieldLine (Samples.refProp "color" "Color" true))
      (withGlobal (freshWorld ∅)
         (JS.nl +:+ JS.spaces 7 +:+ "// colors.ts" +:+ JS.nl
          +:+ JS.spaces 7 +:+ "export null" +:+ JS.nl +:+ JS.nl)).
Proof.
  exact (proj2 (proj2 (located_text_is_never_empty (H := Samples.host)
                         Samples.barProject Samples.barFile
                         (Samples.refProp "color" "Color" true) RefEnum _
                         (freshWorld ∅) eq_refl eq_refl))).
Defined.

(** ** Extends-Clause Resolver, continued *)

Lemma visitExtendsChild_terms (node : Node) :
  visitExtendsChild [] node = termsOfChild node.
Proof.
  unfold visitExtendsChild, termsOfChild.
  destruct (getKind node); simpl; try reflexivity.
  destruct (calleeIsPartialType node); [|reflexivity].
  by rewrite pushArg_fold.
Qed.

Lemma fold_visit_flat_map (nodes : list Node) :
  fold_left visitExtendsChild nodes [] = flat_map termsOfChild nodes.
Proof.
  induction nodes as [|n nodes IH]; simpl; [reflexivity|].
  by rewrite visitExtendsChild_fold, visitExtendsChild_terms, IH.
Qed.

(** Only the first comma of a text is removed. *)
Lemma replace_first_comma (a b : string) :
  String.index 0 "," a = None ->
  JS.replace "," EmptyString (a +:+ "," +:+ b) = a +:+ b.
Proof.
  change ("," +:+ b) with (String "," b).
  induction a as [|c a IH]; intros Hfree.
  - destruct b; reflexivity.
  - cbn -[ascii_dec] in Hfree. rewrite !append_cons.
    cbn -[ascii_dec String.append].
    destruct (ascii_dec "," c) as [Heq|Hne].
    + destruct a; discriminate.
    + destruct (String.index 0 "," a); [discriminate|].
      by rewrite (IH eq_refl).
Qed.

(** X5.  The terms of a class are those of the children of its heritage
    expression, child after child: a [PartialType] call gives one
    Partial-wrapped term per syntax list, an identifier one plain term, any
    other child none; what was collected from earlier children is neither
    reordered nor dropped. *)
Theorem extends_terms_in_child_order (c : ClassDeclaration) :
  collectExtendArgs c
  = match c_extends c with
    | Some e => flat_map termsOfChild (forEachChildNodes e)
    | None => []
    end
  /\ (forall e before after,
        c_extends c = Some e ->
        forEachChildNodes e = before ++ after ->
        collectExtendArgs c
        = flat_map termsOfChild before ++ flat_map termsOfChild after).
Proof.
  split.
  - unfold collectExtendArgs. destruct (c_extends c); [|reflexivity].
    apply fold_visit_flat_map.
  - intros e before after He Hnodes. unfold collectExtendArgs.
    rewrite He, Hnodes, fold_visit_flat_map. apply flat_map_app.
Qed.

Lemma extends_terms_in_child_order_witness :
  collectExtendArgs
    (classExtending "Mix"
       [callExpression "PartialType" ["A"] false; leaf (OtherKind 79) "x";
        leaf Identifier "B"] [])
  = [ {| isPartial := true; arg := "A" |}; plainTerm "B" ].
Proof.
  rewrite (proj2 (extends_terms_in_child_order
                    (classExtending "Mix"
                       [callExpression "PartialType" ["A"] false;
                        leaf (OtherKind 79) "x"; leaf Identifier "B"] []))
             _ [callExpression "PartialType" ["A"] false]
             [leaf (OtherKind 79) "x"; leaf Identifier "B"] eq_refl eq_refl).
  reflexivity.
Defined.

(** X6.  A heritage expression none of whose children is an identifier or a
    [PartialType] call, such as [extends OmitType(Base)], yields no term:
    the class is emitted like a class that extends nothing, from its own
    properties alone, and the base type does not appear. *)
Theorem unsupported_heritage_is_dropped `{Host} (project : Project)
  (currentFile : SourceFile) (content : string) (c : ClassDeclaration) (e : Node)
  (w w' : World) (lines : list string) :
  c_extends c = Some e ->
  Forall (fun n => getKind n <> Identifier
                   /\ (getKind n = CallExpression -> calleeIsPartialType n = false))
    (forEachChildNodes e) ->
  getPropertiesInTextFormat project currentFile c w = Done lines w' ->
  collectExtendArgs c = []
  /\ transformClass project currentFile content c w
     = Done (content
             +:+ getNormalClassContent (JS.show_undefined (c_name c))
                   (JS.join EmptyString (c_jsDocs c)) lines)
         (withClassType w' (JS.show_undefined (c_name c))
            (getNormalClassContent (JS.show_undefined (c_name c))
               (JS.join EmptyString (c_jsDocs c)) lines)).
Proof.
  intros He Hkinds Hprops.
  assert (Hno : collectExtendArgs c = []).
  { unfold collectExtendArgs. rewrite He, fold_visit_flat_map.
    induction Hkinds as [|n ns [Hid Hcall] _ IH]; simpl; [reflexivity|].
    rewrite IH, app_nil_r. unfold termsOfChild.
    destruct (getKind n); try reflexivity; [|congruence].
    by rewrite Hcall. }
  split; [exact Hno|].
  unfold transformClass. rewrite bind_run, Hprops, Hno. reflexivity.
Qed.

Lemma unsupported_heritage_is_dropped_witness :
  collectExtendArgs MoreSamples.Slim = []
  /\ exists w',
       transformClass (H := Samples.host) [] Samples.fooFile EmptyString
         MoreSamples.Slim (freshWorld ∅)
       = Done (JS.nl +:+ JS.spaces 7 +:+ JS.nl +:+ JS.spaces 7
               +:+ "export type Slim =  {" +:+ JS.nl +:+ JS.spaces 15
               +:+ JS.nl +:+ JS.spaces 15 +:+ JS.nl +:+ JS.spaces 17
               +:+ "id: string" +:+ JS.nl +:+ JS.spaces 17 +:+ JS.nl
               +:+ JS.spaces 11 +:+ "};;") w'.
Proof.
  edestruct (unsupported_heritage_is_dropped (H := Samples.host) []
               Samples.fooFile EmptyString MoreSamples.Slim
               (heritage [callExpression "OmitType" ["Base"] false])
               (freshWorld ∅)) as [Hno Hrun].
  - reflexivity.
  - constructor; [|constructor]. split; [discriminate | reflexivity].
  - reflexivity.
  - split; [exact Hno|]. eexists. exact Hrun.
Defined.

(** X7.  The comma stripping of a term removes the first comma of the
    node's text and nothing after it: a [PartialType] call with three
    arguments [A, B, C] gives the single term [A B, C]. *)
Theorem term_loses_first_comma_only (partial : bool)
  (extendArgs : list ExtendArgsType) (node : Node) (a b : string) :
  getText node = a +:+ "," +:+ b ->
  String.index 0 "," a = None ->
  pushArg partial extendArgs node
  = extendArgs ++ [ {| isPartial := partial; arg := a +:+ b |} ].
Proof.
  intros Htext Hfree. unfold pushArg.
  by rewrite Htext, replace_first_comma.
Qed.

Lemma term_loses_first_comma_only_witness :
  collectExtendArgs
    (classExtending "Patch" [callExpression "PartialType" ["A"; "B"; "C"] false] [])
  = [ {| isPartial := true; arg := "A B, C" |} ].
Proof.
  change (collectExtendArgs
            (classExtending "Patch"
               [callExpression "PartialType" ["A"; "B"; "C"] false] []))
    with (pushArg true [] (argumentList ["A"; "B"; "C"] false)).
  exact (term_loses_first_comma_only true [] (argumentList ["A"; "B"; "C"] false)
           "A" " B, C" eq_refl eq_refl).
Defined.

(** ** Property Emitter, continued *)

(** X8.  The locator is asked only for properties whose type annotation is
    a type reference.  A class all of whose properties lack an annotation
    or carry another kind of type is emitted whatever the project, the
    imports and the declarations of the file are: nothing is thrown and the
    accumulator is left as it was.  A property without annotation is
    rendered with the type text [undefined]. *)
Theorem untyped_references_need_no_lookup `{Host} (project : Project)
  (currentFile : SourceFile) (content : string) (c : ClassDeclaration) (w : World) :
  Forall (fun p => forall tn, p_typeNode p = Some tn -> tn_kind tn <> TypeReference)
    (c_properties c) ->
  transformClass project currentFile content c w
  = Done (content +:+ declOf c)
      (withClassType w (JS.show_undefined (c_name c)) (declOf c))
  /\ (forall p, In p (c_properties c) -> p_typeNode p = None ->
        fieldLine p
        = JS.nl +:+ JS.spaces 15 +:+ JS.join EmptyString (p_jsDocs p) +:+ JS.nl
          +:+ JS.spaces 17 +:+ p_name p
          +:+ (if p_hasQuestionToken p then "?" else EmptyString)
          +:+ ": undefined" +:+ JS.nl +:+ JS.spaces 17).
Proof.
  intros Hprops. split.
  - rewrite transformClass_run.
    assert (Hall : resolveAll project currentFile (c_properties c)
                   = (EmptyString, None)).
    { induction Hprops as [|p ps Hp _ IH]; simpl; [reflexivity|].
      unfold resolveProperty, getRefType.
      destruct (p_typeNode p) as [tn|] eqn:Etn.
      - specialize (Hp tn eq_refl).
        destruct (tn_kind tn); try congruence; simpl; by rewrite IH.
      - by rewrite IH. }
    rewrite Hall. simpl. by rewrite append_nil_r, withGlobal_same.
  - intros p _ Hnone. unfold fieldLine, propertyValue. rewrite Hnone. reflexivity.
Qed.

Lemma untyped_references_need_no_lookup_witness :
  transformClass (H := Samples.host) [] Samples.bazFile EmptyString Samples.Plain
    (freshWorld ∅)
  = Done (declOf Samples.Plain)
      (withClassType (freshWorld ∅) "Plain" (declOf Samples.Plain)).
Proof.
  refine (proj1 (untyped_references_need_no_lookup (H := Samples.host) []
                   Samples.bazFile EmptyString Samples.Plain (freshWorld ∅) _)).
  repeat constructor; simpl; intros tn Htn; injection Htn as <-; discriminate.
Defined.

(** ** What a run leaves untouched *)

Lemma keeps_ret (R : World -> World -> Prop) {A} (a : A) :
  (forall w, R w w) -> keeps R (mret a).
Proof. intros Hrefl w. apply Hrefl. Qed.

Lemma keeps_throw (R : World -> World -> Prop) {A} (msg : string) :
  (forall w, R w w) -> keeps R (@throw A msg).
Proof. intros Hrefl w. apply Hrefl. Qed.

Lemma keeps_lift (R : World -> World -> Prop) {A} (r : result A) :
  (forall w, R w w) -> keeps R (lift r).
Proof. destruct r; [apply keeps_ret | apply keeps_throw]. Qed.

Lemma keeps_bind (R : World -> World -> Prop) {A B} (m : M A) (k : A -> M B) :
  (forall w1 w2 w3, R w1 w2 -> R w2 w3 -> R w1 w3) ->
  keeps R m -> (forall a, keeps R (k a)) -> keeps R (m ≫= k).
Proof.
  intros Htrans Hm Hk w. rewrite bind_run.
  specialize (Hm w). destruct (m w) as [a w1|msg w1]; simpl in Hm; [|exact Hm].
  exact (Htrans _ _ _ Hm (Hk a w1)).
Qed.

Lemma keeps_mapM (R : World -> World -> Prop) {A B} (f : A -> M B) (l : list A) :
  (forall w, R w w) ->
  (forall w1 w2 w3, R w1 w2 -> R w2 w3 -> R w1 w3) ->
  (forall x, keeps R (f x)) -> keeps R (mapM f l).
Proof.
  intros Hrefl Htrans Hf. induction l as [|x l IH]; simpl; [by apply keeps_ret|].
  apply keeps_bind; [exact Htrans | apply Hf|]. intros y.
  apply keeps_bind; [exact Htrans | exact IH|]. intros ys. by apply keeps_ret.
Qed.

Lemma keeps_foldM (R : World -> World -> Prop) {A S} (f : S -> A -> M S) (l : list A) :
  (forall w, R w w) ->
  (forall w1 w2 w3, R w1 w2 -> R w2 w3 -> R w1 w3) ->
  (forall s x, keeps R (f s x)) -> forall s, keeps R (foldM f s l).
Proof.
  intros Hrefl Htrans Hf. induction l as [|x l IH]; intros s; simpl;
    [by apply keeps_ret|].
  apply keeps_bind; [exact Htrans | apply Hf | apply IH].
Qed.

Section RunKeeps.
Context `{Host}.
Variable project : Project.
Variable cliOptions : CliOptions.
Variable R : World -> World -> Prop.
Hypothesis R_refl : forall w, R w w.
Hypothesis R_trans : forall w1 w2 w3, R w1 w2 -> R w2 w3 -> R w1 w3.
Hypothesis R_append : forall t, keeps R (appendGlobal t).
Hypothesis R_record : forall n t, keeps R (setClassType n t).
Hypothesis R_temp : forall t, keeps R (writeFile (tempPath cliOptions) t).
Hypothesis R_out : forall t, keeps R (writeFile (outPath cliOptions) t).

Lemma keeps_emitProperty (f : SourceFile) (p : PropertyDeclaration) :
  keeps R (emitProperty project f p).
Proof.
  assert (Hacc : forall t, keeps R (accumulate t)).
  { intros t. unfold accumulate.
    destruct (JS.truthy t); [apply R_append | by apply keeps_ret]. }
  unfold emitProperty.
  apply keeps_bind; [exact R_trans | |].
  { destruct (getRefType p) as [[|]|]; try (by apply keeps_ret).
    apply keeps_bind; [exact R_trans | by apply keeps_lift | exact Hacc]. }
  intros _. apply keeps_bind; [exact R_trans | | intros; by apply keeps_ret].
  destruct (getRefType p) as [[|]|]; try (by apply keeps_ret).
  apply keeps_bind; [exact R_trans | by apply keeps_lift | exact Hacc].
Qed.

Lemma keeps_transformClass (f : SourceFile) (content : string) (c : ClassDeclaration) :
  keeps R (transformClass project f content c).
Proof.
  unfold transformClass, getPropertiesInTextFormat.
  apply keeps_bind; [exact R_trans | |].
  { apply keeps_mapM; [exact R_refl | exact R_trans | apply keeps_emitProperty]. }
  intros lines. destruct (collectExtendArgs c);
    (apply keeps_bind; [exact R_trans | apply R_record | intros; by apply keeps_ret]).
Qed.

Lemma keeps_processFile (filesToWrite : list (string * string)) (f : SourceFile) :
  keeps R (processFile project cliOptions filesToWrite f).
Proof.
  unfold processFile.
  apply keeps_bind; [exact R_trans | |].
  { apply keeps_foldM; [exact R_refl | exact R_trans |].
    intros; apply keeps_transformClass. }
  intros content. apply keeps_bind; [exact R_trans | intros w; apply R_refl |].
  intros g. apply keeps_bind; [exact R_trans | apply R_temp |]. intros _.
  apply keeps_bind; [exact R_trans | by apply keeps_lift |]. intros formatted.
  apply keeps_bind; [exact R_trans | apply R_out |]. intros _.
  by apply keeps_ret.
Qed.

Lemma keeps_run (files : list SourceFile) :
  keeps R (run project cliOptions files).
Proof.
  unfold run. apply keeps_foldM; [exact R_refl | exact R_trans |].
  intros; apply keeps_processFile.
Qed.

End RunKeeps.

(** X9.  Whether it completes or throws, a run changes the disk at the two
    output paths only: every other path holds what it held before. *)
Theorem run_writes_only_its_outputs `{Host} (project : Project)
  (cliOptions : CliOptions) (files : list SourceFile) (w : World) (path : string) :
  path <> tempPath cliOptions ->
  path <> outPath cliOptions ->
  disk (worldOf (run project cliOptions files w)) !! path = disk w !! path.
Proof.
  intros Htemp Hout.
  assert (Hkeeps : keeps (sameElsewhere [tempPath cliOptions; outPath cliOptions])
                     (run project cliOptions files)).
  { apply keeps_run.
    - intros w0 q _. reflexivity.
    - intros w1 w2 w3 H12 H23 q Hq. by rewrite (H23 q Hq), (H12 q Hq).
    - intros t w0 q _. reflexivity.
    - intros n t w0 q _. reflexivity.
    - intros t w0 q Hq. simpl. apply lookup_insert_ne.
      intros E. apply Hq. left. exact E.
    - intros t w0 q Hq. simpl. apply lookup_insert_ne.
      intros E. apply Hq. right. left. exact E. }
  apply Hkeeps. intros [E|[E|[]]]; congruence.
Qed.

Lemma run_writes_only_its_outputs_witness :
  disk (worldOf (run (H := Samples.host) [Samples.fooFile] Samples.cli
                   [Samples.fooFile; Samples.bazFile]
                   (freshWorld {[ "/w/README.md" := "notes" ]})))
    !! "/w/README.md" = Some "notes".
Proof.
  rewrite (run_writes_only_its_outputs (H := Samples.host) [Samples.fooFile]
             Samples.cli [Samples.fooFile; Samples.bazFile]
             (freshWorld {[ "/w/README.md" := "notes" ]}) "/w/README.md").
  - reflexivity.
  - vm_compute. discriminate.
  - vm_compute. discriminate.
Defined.

(** X10.  Whether it completes or throws, a run only appends to the
    accumulator: what it held at the start is a prefix of what it holds at
    the end. *)
Theorem accumulator_is_append_only `{Host} (project : Project)
  (cliOptions : CliOptions) (files : list SourceFile) (w : World) :
  exists appended,
    globalContent (worldOf (run project cliOptions files w))
    = globalContent w +:+ appended.
Proof.
  assert (Hkeeps : keeps accumulatorExtended (run project cliOptions files)).
  { apply keeps_run.
    - intros w0. exists EmptyString. by rewrite append_nil_r.
    - intros w1 w2 w3 [t12 H12] [t23 H23]. exists (t12 +:+ t23).
      by rewrite H23, H12, append_assoc.
    - intros t w0. by exists t.
    - intros n t w0. exists EmptyString. simpl. by rewrite append_nil_r.
    - intros t w0. exists EmptyString. simpl. by rewrite append_nil_r.
    - intros t w0. exists EmptyString. simpl. by rewrite append_nil_r. }
  apply Hkeeps.
Qed.

(** ** What a completed run leaves *)

Lemma assignKey_lookup_ne (obj : gmap string string) (key value name : string) :
  key <> name -> assignKey obj key value !! name = obj !! name.
Proof.
  intros Hne. unfold assignKey.
  destruct (String.eqb key "__proto__"); [reflexivity|].
  by apply lookup_insert_ne.
Qed.

Lemma assignKey_lookup_eq (obj : gmap string string) (key value : string) :
  key <> "__proto__" -> assignKey obj key value !! key = Some value.
Proof.
  intros Hne. unfold assignKey.
  destruct (String.eqb key "__proto__") eqn:E.
  - apply String.eqb_eq in E. contradiction.
  - apply lookup_insert_eq.
Qed.

Lemma assignKey_proto (obj : gmap string string) (value : string) :
  assignKey obj "__proto__" value = obj.
Proof. reflexivity. Qed.

Lemma recordClasses_proto (cs : list ClassDeclaration) (m : gmap string string) :
  recordClasses cs m !! "__proto__" = m !! "__proto__".
Proof.
  revert m. induction cs as [|c cs IH]; intros m; [reflexivity|].
  change (recordClasses (c :: cs) m)
    with (recordClasses cs (assignKey m (JS.show_undefined (c_name c)) (declOf c))).
  rewrite IH. unfold assignKey.
  destruct (String.eqb (JS.show_undefined (c_name c)) "__proto__") eqn:E;
    [reflexivity|].
  apply lookup_insert_ne. intros Heq. rewrite Heq in E. discriminate.
Qed.

Lemma recordClasses_app (l1 l2 : list ClassDeclaration) (m : gmap string string) :
  recordClasses (l1 ++ l2) m = recordClasses l2 (recordClasses l1 m).
Proof. apply fold_left_app. Qed.

Lemma recordClasses_other (cs : list ClassDeclaration) (m : gmap string string)
  (name : string) :
  Forall (fun c => JS.show_undefined (c_name c) <> name) cs ->
  recordClasses cs m !! name = m !! name.
Proof.
  intros Hcs. revert m. induction Hcs as [|c cs Hc _ IH]; intros m; [reflexivity|].
  change (recordClasses (c :: cs) m)
    with (recordClasses cs (assignKey m (JS.show_undefined (c_name c)) (declOf c))).
  rewrite IH. by apply assignKey_lookup_ne.
Qed.

Lemma concatStrings_app (l1 l2 : list string) :
  concatStrings (l1 ++ l2) = concatStrings l1 +:+ concatStrings l2.
Proof.
  induction l1 as [|x l1 IH]; simpl; [reflexivity|].
  by rewrite IH, append_assoc.
Qed.

Section CompletedFacts.
Context `{Host}.
Variable project : Project.
Variable cliOptions : CliOptions.

Lemma foldM_transformClass_done (f : SourceFile) (cs : list ClassDeclaration)
  (content content' : string) (w w' : World) :
  foldM (transformClass project f) content cs w = Done content' w' ->
  content' = content +:+ concatStrings (map declOf cs)
  /\ classTypeMaps w' = recordClasses cs (classTypeMaps w)
  /\ disk w' = disk w.
Proof.
  revert content w. induction cs as [|c cs IH]; intros content w Hrun; simpl in Hrun.
  - injection Hrun as <- <-. simpl. by rewrite append_nil_r.
  - rewrite bind_run, transformClass_run in Hrun.
    destruct (resolveAll project f (c_properties c)) as [t [msg|]]; [discriminate|].
    destruct (IH _ _ Hrun) as (-> & -> & ->).
    simpl. by rewrite append_assoc.
Qed.

(** What a completed pass over one file has done. *)
Lemma processFile_done (filesToWrite r : list (string * string)) (f : SourceFile)
  (w w' : World) :
  processFile project cliOptions filesToWrite f w = Done r w' ->
  r = filesToWrite ++ [(f_baseName f, fileContent f)]
  /\ classTypeMaps w' = recordClasses (f_classes f) (classTypeMaps w)
  /\ exists formatted,
       format (getFinalContentTemplate (namespace cliOptions)
                 (globalContent w' +:+ " " +:+ innerContentOf r)) = Ok formatted
       /\ disk w'
          = <[outPath cliOptions := formatted]>
              (<[tempPath cliOptions := globalContent w' +:+ " " +:+ innerContentOf r]>
                 (disk w)).
Proof.
  unfold processFile. rewrite bind_run.
  destruct (foldM _ _ _ w) as [content w1|msg w1] eqn:Hcs; [|discriminate].
  destruct (foldM_transformClass_done _ _ _ _ _ _ Hcs) as (-> & Hmap & Hdisk).
  rewrite !bind_run. simpl. rewrite !bind_run.
  destruct (format _) as [formatted|msg] eqn:Hfmt; simpl; [|discriminate].
  intros Hrun. injection Hrun as <- <-. simpl.
  repeat split; [exact Hmap|].
  exists formatted. rewrite Hdisk. split; [exact Hfmt | reflexivity].
Qed.

Lemma foldM_processFile_done (files : list SourceFile)
  (filesToWrite r : list (string * string)) (w w' : World) :
  foldM (processFile project cliOptions) filesToWrite files w = Done r w' ->
  r = filesToWrite ++ map (fun f => (f_baseName f, fileContent f)) files
  /\ classTypeMaps w' = recordClasses (flat_map f_classes files) (classTypeMaps w)
  /\ globalContent w' = globalContent w +:+ resolvedTexts project files.
Proof.
  revert filesToWrite w.
  induction files as [|f files IH]; intros ftw w Hrun; simpl in Hrun.
  - injection Hrun as <- <-. unfold resolvedTexts. simpl.
    by rewrite app_nil_r, append_nil_r.
  - rewrite bind_run in Hrun.
    destruct (processFile _ _ _ _ w) as [ftw1 w1|msg w1] eqn:Hf; [|discriminate].
    destruct (processFile_done _ _ _ _ _ Hf) as (-> & Hmap & _).
    destruct (processFile_global _ _ _ _ _ _ _ Hf) as (t & Ht & Hg).
    destruct (IH _ _ Hrun) as (-> & -> & ->).
    simpl. rewrite recordClasses_app, Hmap, Hg, <- app_assoc.
    unfold resolvedTexts. simpl. rewrite Ht. simpl.
    by rewrite append_assoc.
Qed.

End CompletedFacts.

(** X11.  A completed run has produced one fragment per file, in the order
    of the files: the file's header comment followed by the declarations of
    its classes in declaration order, each built from the class alone.  The
    fragments do not depend on the project, the accumulator or the disk. *)
Theorem completed_run_lists_files_in_order `{Host} (project : Project)
  (cliOptions : CliOptions) (files : list SourceFile)
  (r : list (string * string)) (w w' : World) :
  run project cliOptions files w = Done r w' ->
  r = map (fun f => (f_baseName f,
                     fileHeader (f_baseName f)
                     +:+ concatStrings
                           (map (fun c => classContent c (map fieldLine (c_properties c)))
                              (f_classes f)))) files.
Proof.
  intros Hrun. unfold run in Hrun.
  by destruct (foldM_processFile_done project cliOptions _ _ _ _ _ Hrun) as (-> & _).
Qed.

Lemma completed_run_lists_files_in_order_witness :
  exists w',
    run (H := Samples.host) [Samples.fooFile; Samples.twoFile] Samples.cli
      [Samples.fooFile; Samples.twoFile] (freshWorld ∅)
    = Done [("foo.dto.ts", fileContent Samples.fooFile);
            ("two.dto.ts", fileContent Samples.twoFile)] w'.
Proof.
  destruct (run (H := Samples.host) [Samples.fooFile; Samples.twoFile] Samples.cli
              [Samples.fooFile; Samples.twoFile] (freshWorld ∅))
    as [r w'|msg w'] eqn:Hrun.
  - exists w'.
    by rewrite (completed_run_lists_files_in_order (H := Samples.host)
                  _ _ _ _ _ _ Hrun).
  - exfalso. vm_compute in Hrun. discriminate.
Defined.

(** X12.  After a completed run the class map holds, over what it held
    before, the declaration of every class under the class's name, except
    that nothing is ever stored under the name [__proto__]; of several
    classes with one name, in one file or across files, the one processed
    last is the one kept. *)
Theorem class_map_keeps_last_declaration `{Host} (project : Project)
  (cliOptions : CliOptions) (files : list SourceFile)
  (r : list (string * string)) (w w' : World)
  (earlier later : list ClassDeclaration) (c : ClassDeclaration) :
  run project cliOptions files w = Done r w' ->
  flat_map f_classes files = earlier ++ c :: later ->
  Forall (fun c' => JS.show_undefined (c_name c') <> JS.show_undefined (c_name c))
    later ->
  (JS.show_undefined (c_name c) <> "__proto__" ->
   classTypeMaps w' !! JS.show_undefined (c_name c)
   = Some (classContent c (map fieldLine (c_properties c))))
  /\ classTypeMaps w' !! "__proto__" = classTypeMaps w !! "__proto__".
Proof.
  intros Hrun Hsplit Hlater. unfold run in Hrun.
  destruct (foldM_processFile_done project cliOptions _ _ _ _ _ Hrun)
    as (_ & -> & _).
  split; [|apply recordClasses_proto].
  intros Hname. rewrite Hsplit, recordClasses_app.
  change (recordClasses (c :: later) ?m)
    with (recordClasses later
            (assignKey m (JS.show_undefined (c_name c)) (declOf c))).
  rewrite (recordClasses_other _ _ _ Hlater). by apply assignKey_lookup_eq.
Qed.

Lemma class_map_keeps_last_declaration_witness :
  exists r w',
    run (H := Samples.host) [MoreSamples.dupFile] Samples.cli [MoreSamples.dupFile]
      (freshWorld ∅) = Done r w'
    /\ classTypeMaps w' !! "Dup" = Some (declOf MoreSamples.Dup2)
    /\ classTypeMaps w' !! "__proto__" = None.
Proof.
  destruct (run (H := Samples.host) [MoreSamples.dupFile] Samples.cli
              [MoreSamples.dupFile] (freshWorld ∅)) as [r w'|msg w'] eqn:Hrun.
  - exists r, w'. split; [reflexivity|].
    destruct (class_map_keeps_last_declaration (H := Samples.host) _ _ _ _ _ _
                [MoreSamples.Dup1] [] MoreSamples.Dup2 Hrun eq_refl
                (List.Forall_nil _)) as [Hlast Hproto].
    split; [apply Hlast; discriminate | exact Hproto].
  - exfalso. vm_compute in Hrun. discriminate.
Defined.

(** X13.  After a completed run the accumulator holds what it held before
    followed by the texts the locator returned for the properties of all
    files, in file, class and property order, and nothing else. *)
Theorem completed_run_accumulates_in_order `{Host} (project : Project)
  (cliOptions : CliOptions) (files : list SourceFile)
  (r : list (string * string)) (w w' : World) :
  run project cliOptions files w = Done r w' ->
  globalContent w'
  = globalContent w
    +:+ concatStrings
          (map (fun f => fst (resolveAll project f (flat_map c_properties (f_classes f))))
             files)
  /\ Forall (fun f => snd (resolveAll project f (flat_map c_properties (f_classes f)))
                      = None) files.
Proof.
  intros Hrun. unfold run in Hrun. split.
  - by destruct (foldM_processFile_done project cliOptions _ _ _ _ _ Hrun)
      as (_ & _ & ->).
  - revert Hrun. generalize (@nil (string * string)). revert w.
    induction files as [|f files IH]; intros w ftw Hrun; [constructor|].
    simpl in Hrun. rewrite bind_run in Hrun.
    destruct (processFile _ _ _ _ w) as [ftw1 w1|msg w1] eqn:Hf; [|discriminate].
    destruct (processFile_global _ _ _ _ _ _ _ Hf) as (t & Ht & _).
    constructor; [|exact (IH _ _ Hrun)].
    unfold allProperties in Ht. by rewrite Ht.
Qed.

Lemma completed_run_accumulates_in_order_witness :
  exists r w',
    run (H := Samples.host) [Samples.fooFile; Samples.twoFile] Samples.cli
      [Samples.fooFile; Samples.twoFile] (freshWorld ∅) = Done r w'
    /\ globalContent w'
       = "export enum Status { A }" +:+ JS.nl +:+ JS.nl
         +:+ "export enum Status { A }" +:+ JS.nl +:+ JS.nl
         +:+ "export enum Status { A }" +:+ JS.nl +:+ JS.nl.
Proof.
  destruct (run (H := Samples.host) [Samples.fooFile; Samples.twoFile] Samples.cli
              [Samples.fooFile; Samples.twoFile] (freshWorld ∅))
    as [r w'|msg w'] eqn:Hrun.
  - exists r, w'. split; [reflexivity|].
    by rewrite (proj1 (completed_run_accumulates_in_order (H := Samples.host)
                         _ _ _ _ _ _ Hrun)).
  - exfalso. vm_compute in Hrun. discriminate.
Defined.



(** ** Runs that stop early *)

Section EarlyStop.
Context `{Host}.
Variable project : Project.
Variable cliOptions : CliOptions.

(** The run stops at the first property whose lookup throws. *)
Lemma run_thrown_at (pre post : list SourceFile) (f : SourceFile)
  (cpre cpost : list ClassDeclaration) (c : ClassDeclaration)
  (ppre ppost : list PropertyDeclaration) (p : PropertyDeclaration)
  (msg : string) (filesToWrite : list (string * string)) (content : string)
  (lines : list string) (w0 w1 w2 w3 : World) :
  f_classes f = cpre ++ c :: cpost ->
  c_properties c = ppre ++ p :: ppost ->
  resolveProperty project f p = Err msg ->
  foldM (processFile project cliOptions) [] pre w0 = Done filesToWrite w1 ->
  foldM (transformClass project f) (fileHeader (f_baseName f)) cpre w1
  = Done content w2 ->
  mapM (emitProperty project f) ppre w2 = Done lines w3 ->
  run project cliOptions (pre ++ f :: post) w0 = Thrown msg w3
  /\ disk w3 = disk w1.
Proof.
  intros Hcs Hps Hres Hpre Hcpre Hppre.
  pose proof (emitProperty_throws project f p _ Hres w3) as Hthrow.
  split.
  - unfold run. rewrite foldM_app, Hpre. simpl. rewrite bind_run.
    erewrite processFile_thrown; [reflexivity|].
    rewrite Hcs, foldM_app, Hcpre. simpl. rewrite bind_run.
    unfold transformClass, getPropertiesInTextFormat.
    rewrite bind_run, Hps.
    by rewrite (mapM_app_thrown _ _ _ _ _ _ _ _ _ Hppre Hthrow).
  - rewrite mapM_emit_run in Hppre.
    destruct (resolveAll project f ppre) as [t [m|]]; [discriminate|].
    injection Hppre as _ <-. simpl.
    exact (foldM_transformClass_keeps_disk project f _ _ _ _ _ Hcpre).
Qed.

End EarlyStop.

(** X15.  A reference to a name that the current file does not declare and
    that its first import naming it takes from a file which is not loaded
    stops the run with [could not find file at path <specifier>.ts]; the
    disk is left as the files before left it. *)
Theorem unloaded_import_target_aborts_run `{Host} (project : Project)
  (cliOptions : CliOptions) (pre post : list SourceFile) (f : SourceFile)
  (cpre cpost : list ClassDeclaration) (c : ClassDeclaration)
  (ppre ppost : list PropertyDeclaration) (p : PropertyDeclaration)
  (k : RefType) (importedModule : ImportDeclaration)
  (filesToWrite : list (string * string)) (content : string)
  (lines : list string) (w0 w1 w2 w3 : World) :
  f_classes f = cpre ++ c :: cpost ->
  c_properties c = ppre ++ p :: ppost ->
  getRefType p = Some k ->
  extractDecl k f (propertyValueString p) = None ->
  findImportNaming f (propertyValueString p) = Some importedModule ->
  getSourceFile project
    (path_resolve [f_directoryPath f; i_moduleSpecifier importedModule +:+ ".ts"])
  = None ->
  foldM (processFile project cliOptions) [] pre w0 = Done filesToWrite w1 ->
  foldM (transformClass project f) (fileHeader (f_baseName f)) cpre w1
  = Done content w2 ->
  mapM (emitProperty project f) ppre w2 = Done lines w3 ->
  run project cliOptions (pre ++ f :: post) w0
  = Thrown ("could not find file at path " +:+ i_moduleSpecifier importedModule
            +:+ ".ts") w3
  /\ disk w3 = disk w1.
Proof.
  intros Hcs Hps Hk Hdecl Himp Hfile Hpre Hcpre Hppre.
  apply (run_thrown_at project cliOptions pre post f cpre cpost c ppre ppost p
           _ filesToWrite content lines w0 w1 w2 w3 Hcs Hps); try assumption.
  unfold resolveProperty. rewrite Hk. destruct k; simpl in Hdecl.
  - unfold searchForEnumInFiles. by rewrite Hdecl, Himp, Hfile.
  - unfold searchForTypeAliasInFiles. by rewrite Hdecl, Himp, Hfile.
Qed.

Lemma unloaded_import_target_aborts_run_witness :
  run (H := Samples.host) [MoreSamples.goneFile] Samples.cli
    [MoreSamples.goneFile; Samples.fooFile] (freshWorld ∅)
  = Thrown "could not find file at path ./gone.ts" (freshWorld ∅).
Proof.
  exact (proj1 (unloaded_import_target_aborts_run (H := Samples.host)
                  [MoreSamples.goneFile] Samples.cli [] [Samples.fooFile]
                  MoreSamples.goneFile [] [] MoreSamples.Gone [] []
                  (Samples.refProp "kind" "Kind" true) RefEnum
                  {| i_moduleSpecifier := "./gone"; i_namedImports := ["Kind"] |}
                  [] (fileHeader "gone.dto.ts") []
                  (freshWorld ∅) (freshWorld ∅) (freshWorld ∅) (freshWorld ∅)
                  eq_refl eq_refl eq_refl eq_refl eq_refl eq_refl
                  eq_refl eq_refl eq_refl)).
Defined.

(** X16.  When the formatter rejects the text assembled after a file, the
    run stops with the formatter's error after [types.temp] has been
    rewritten with the fragment of that file included; the output file is
    not written for that file and keeps what the files before left there,
    and no later file is processed. *)
Theorem formatter_failure_leaves_raw_artifact `{Host} (project : Project)
  (cliOptions : CliOptions) (pre post : list SourceFile) (f : SourceFile)
  (filesToWrite : list (string * string)) (content msg : string)
  (w0 w1 w2 : World) :
  foldM (processFile project cliOptions) [] pre w0 = Done filesToWrite w1 ->
  foldM (transformClass project f) (fileHeader (f_baseName f)) (f_classes f) w1
  = Done content w2 ->
  let raw := globalContent w2 +:+ " "
             +:+ innerContentOf (filesToWrite ++ [(f_baseName f, content)]) in
  format (getFinalContentTemplate (namespace cliOptions) raw) = Err msg ->
  exists w',
    run project cliOptions (pre ++ f :: post) w0 = Thrown msg w'
    /\ disk w' !! tempPath cliOptions = Some raw
    /\ (outPath cliOptions <> tempPath cliOptions ->
        disk w' !! outPath cliOptions = disk w1 !! outPath cliOptions).
Proof.
  intros Hpre Hcs raw Hfmt.
  exists {| globalContent := globalContent w2; classTypeMaps := classTypeMaps w2;
            disk := <[tempPath cliOptions := raw]> (disk w2) |}.
  split; [|split].
  - unfold run. rewrite foldM_app, Hpre. simpl. rewrite bind_run.
    unfold processFile. rewrite bind_run, Hcs, !bind_run. simpl.
    rewrite !bind_run. fold raw. rewrite Hfmt. reflexivity.
  - simpl. apply lookup_insert_eq.
  - intros Hdiff. simpl. rewrite lookup_insert_ne by congruence.
    by rewrite (foldM_transformClass_keeps_disk project f _ _ _ _ _ Hcs).
Qed.

Lemma formatter_failure_leaves_raw_artifact_witness :
  exists w',
    run (H := MoreSamples.strictHost) [Samples.fooFile] Samples.cli
      [Samples.fooFile; Samples.twoFile] (freshWorld ∅) = Thrown "SyntaxError" w'
    /\ disk w' !! "/w/sdk/types.temp"
       = Some ("export enum Status { A }" +:+ JS.nl +:+ JS.nl +:+ " "
               +:+ fileContent Samples.fooFile +:+ JS.nl +:+ JS.nl)
    /\ disk w' !! "/w/sdk/defs.d.ts" = None.
Proof.
  destruct (formatter_failure_leaves_raw_artifact (H := MoreSamples.strictHost)
              [Samples.fooFile] Samples.cli [] [Samples.twoFile] Samples.fooFile
              [] (fileContent Samples.fooFile) "SyntaxError"
              (freshWorld ∅) (freshWorld ∅)
              {| globalContent := "export enum Status { A }" +:+ JS.nl +:+ JS.nl;
                 classTypeMaps := <["Foo" := declOf Samples.Foo]> ∅;
                 disk := ∅ |}
              eq_refl eq_refl eq_refl) as (w' & Hrun & Htemp & Hout).
  exists w'. split; [exact Hrun|]. split; [exact Htemp|].
  apply Hout. vm_compute. discriminate.
Defined.
